(** * The Consul server charm: configuration rendering, the reconcile
      cycle, join addresses and the consul-cluster relation.

    Embedded sources:
    - [src/charm/src/config_builder.py]   ([Ports], [ConsulConfigBuilder]);
    - [src/charm/src/charm.py]            (module [Charm]);
    - [src/src/charm.py]                  (module [Legacy], the earlier charm);
    - [src/lib/charms/consul_k8s/v0/consul_cluster.py]
                                          (modules [Provider], [Requirer]);
    - [src/charm/src/k8s_resource_handlers.py] (module [K8sHandler]).

    A hook is one run of the charm: the object is built ([__init__]), one
    handler runs to completion, and the process ends.  The unit's view of
    the model (configuration, names, leadership, what the workload and the
    Kubernetes API answer) is a read-only record [HookCtx]; everything a
    hook can change (files in the workload, the pebble plan, relation
    databags, statuses, opened ports, the managed Service objects) is a
    record [State].  Handlers are computations in a small monad that
    threads the state, collects the side effects in call order and
    propagates Python exceptions. *)

From Stdlib Require Import ZArith String Ascii List Bool Lia.
From stdpp Require Import base option list gmap sets strings pretty.

Local Open Scope Z_scope.

(** ** Python values *)

(** The values [json.loads] returns and [json.dumps] accepts, restricted
    to integer numbers.  A [dict] is kept as its item list. *)
#[local] Set Warnings "-register-all".
Inductive json : Type :=
| JNull
| JBool (b : bool)
| JInt (n : Z)
| JStr (s : string)
| JList (l : list json)
| JDict (kvs : list (string * json)).

(** [d.get(k)] on an item list: the last binding of a key wins in Python
    when a dict is built, item lists here carry each key once. *)
Fixpoint dict_get (k : string) (kvs : list (string * json)) : option json :=
  match kvs with
  | [] => None
  | (k', v) :: rest => if String.eqb k k' then Some v else dict_get k rest
  end.

(** Python's [==] on these values: [bool] is an [int] ([True == 1]),
    lists compare element by element, dicts compare as mappings (same
    number of keys, every key of the left one bound to an equal value on
    the right), whatever the order of the items. *)
Fixpoint py_eq (a b : json) {struct a} : bool :=
  match a, b with
  | JNull, JNull => true
  | JBool x, JBool y => Bool.eqb x y
  | JBool x, JInt n => Z.b2z x =? n
  | JInt n, JBool y => n =? Z.b2z y
  | JInt m, JInt n => m =? n
  | JStr s, JStr t => String.eqb s t
  | JList l, JList l' =>
      (fix list_eq (xs ys : list json) {struct xs} : bool :=
         match xs, ys with
         | [], [] => true
         | x :: xs', y :: ys' => py_eq x y && list_eq xs' ys'
         | _, _ => false
         end) l l'
  | JDict d, JDict d' =>
      (length d =? length d')%nat &&
      (fix items_eq (xs : list (string * json)) {struct xs} : bool :=
         match xs with
         | [] => true
         | (k, v) :: xs' =>
             match dict_get k d' with
             | Some v' => py_eq v v'
             | None => false
             end && items_eq xs'
         end) d
  | _, _ => false
  end.

(** A charm configuration value as [self.config.get(key)] returns it:
    [None] for an option that is not set, else a bool, an int or a str
    according to the option's declared type. *)
Inductive config_value : Type :=
| CfgNone
| CfgBool (b : bool)
| CfgInt (n : Z)
| CfgStr (s : string).

(** Truth value testing, as in [if self.config.get(...)]: [None],
    [False], [0] and the empty string are false, all else is true. *)
Definition truthy (v : config_value) : bool :=
  match v with
  | CfgNone => false
  | CfgBool b => b
  | CfgInt n => negb (n =? 0)
  | CfgStr s => negb (String.eqb s "")
  end.

(** The text between [json.dumps]/[json.loads] and the charm is Python's
    own library: it is an interface here.  [json_loads] answers [None]
    where Python raises [json.JSONDecodeError]. *)
Class JsonCodec : Type := {
  json_dumps : option nat -> json -> string;   (* [indent], document *)
  json_loads : string -> option json
}.

(** ** config_builder.py *)

Definition CONSUL_DATA_DIR : string := "/consul/data".

Record Ports : Type := {
  dns : Z;
  http : Z;
  https : Z;
  grpc : Z;
  grpc_tls : Z;
  serf_lan : Z;
  serf_wan : Z;
  server : Z;
  sidecar_min_port : Z;
  sidecar_max_port : Z;
  expose_min_port : Z;
  expose_max_port : Z
}.

Record ConsulConfigBuilder : Type := {
  builder_ports : Ports;
  builder_datacenter : string;
  builder_number_of_units : Z;
  builder_retry_join : list string;
  builder_tls_certificates : gmap string string
}.

(** [ConsulConfigBuilder.__init__]: [tls_certificates or {}]. *)
Definition new_ConsulConfigBuilder (ports : Ports) (datacenter : string)
    (number_of_units : Z) (retry_join_addresses : list string)
    (tls_certificates : option (gmap string string)) : ConsulConfigBuilder :=
  {| builder_ports := ports;
     builder_datacenter := datacenter;
     builder_number_of_units := number_of_units;
     builder_retry_join := retry_join_addresses;
     builder_tls_certificates := default ∅ tls_certificates |}.

(** [ConsulConfigBuilder.build]. *)
Definition build (self : ConsulConfigBuilder) : json :=
  let p := builder_ports self in
  let tls := builder_tls_certificates self in
  JDict [
    ("bind_addr", JStr "0.0.0.0");
    ("bootstrap_expect", JInt (builder_number_of_units self));
    ("client_addr", JStr "0.0.0.0");
    ("connect", JDict [("enabled", JBool false)]);
    ("datacenter", JStr (builder_datacenter self));
    ("data_dir", JStr CONSUL_DATA_DIR);
    ("ports", JDict [
       ("dns", JInt (dns p));
       ("http", JInt (http p));
       ("https", JInt (https p));
       ("grpc", JInt (grpc p));
       ("grpc_tls", JInt (grpc_tls p));
       ("serf_lan", JInt (serf_lan p));
       ("serf_wan", JInt (serf_wan p));
       ("server", JInt (server p))]);
    ("retry_join", JList (JStr <$> builder_retry_join self));
    ("server", JBool true);
    ("tls", JDict [
       ("defaults", JDict [
          ("verify_incoming", JBool true);
          ("verify_outgoing", JBool true);
          ("ca_file",
            JStr (default "/consul/config/certs/ca.pem"
                    (tls !! "ca_certificate_path")));
          ("cert_file",
            JStr (default "/consul/config/certs/server-cert.pem"
                    (tls !! "server_certificate_path")));
          ("key_file",
            JStr (default "/consul/config/certs/server-key.pem"
                    (tls !! "server_key_path")))])]);
    ("ui_config", JDict [("enabled", JBool false)])
  ].

(** ** The operator framework and its collaborators *)

(** [ops.model] statuses with their message. *)
Inductive Status : Type :=
| UnknownStatus
| MaintenanceStatus (message : string)
| WaitingStatus (message : string)
| BlockedStatus (message : string)
| ActiveStatus (message : string).

(** The exceptions the sources name and those pebble raises besides.
    [PathError], [ChangeError], [APIError] and [ConnectionError] are
    subclasses of [ops.pebble.Error] (the source's [Error]);
    [JSONDecodeError] is a [ValueError]. *)
Inductive exn : Type :=
| FileNotFoundError
| PathError (message : string)
| ChangeError (message : string)
| APIError (message : string)
| ConnectionError (message : string)
| JSONDecodeError.

Definition is_pebble_Error (e : exn) : bool :=
  match e with
  | PathError _ | ChangeError _ | APIError _ | ConnectionError _ => true
  | _ => false
  end.

Definition is_ChangeError (e : exn) : bool :=
  match e with ChangeError _ => true | _ => false end.

Definition is_FileNotFoundError (e : exn) : bool :=
  match e with FileNotFoundError => true | _ => false end.

(** [str(e)] of an exception. *)
Definition exn_str (e : exn) : string :=
  match e with
  | FileNotFoundError => "FileNotFoundError"
  | PathError m | ChangeError m | APIError m | ConnectionError m => m
  | JSONDecodeError => "JSONDecodeError"
  end.

(** A pebble service as this charm declares it; the fields it leaves out
    are empty. *)
Record Service : Type := {
  svc_override : string;
  svc_summary : string;
  svc_command : string;
  svc_startup : string
}.

#[global] Instance Service_eq_dec : EqDecision Service.
Proof. solve_decision. Defined.

Record Layer : Type := {
  layer_summary : string;
  layer_description : string;
  layer_services : gmap string Service
}.

(** [lightkube.models.core_v1.ServicePort]. *)
Record ServicePort : Type := {
  sp_port : Z;
  sp_name : string;
  sp_protocol : string;
  sp_nodePort : option Z;
  sp_targetPort : option Z
}.

(** [ops.model.Port(protocol, port)]. *)
Record Port : Type := {
  port_protocol : string;
  port_number : Z
}.

(** What [KubernetesServicePatch(charm, ports, service_name, service_type,
    refresh_event)] is asked to maintain.  The library patches the
    Service object on events of its own; that is outside this file. *)
Record KubernetesServicePatch : Type := {
  ksp_ports : list ServicePort;
  ksp_service_name : string;
  ksp_service_type : string
}.

(** A pod as the Kubernetes API lists it: [status] may be [None], and so
    may [status.hostIP]. *)
Record PodStatus : Type := {
  hostIP : option string
}.

Record Pod : Type := {
  pod_namespace : string;
  pod_labels : gmap string string;
  pod_status : option PodStatus
}.

(** The charm's configuration options. [serflan-node-port] is an int
    option; [expose-gossip-and-rpc-ports] is read through its truth
    value only, so it is kept as Python hands it over. *)
Record Config : Type := {
  cfg_datacenter : string;
  cfg_expose_gossip_and_rpc_ports : config_value;
  cfg_serflan_node_port : Z
}.

(** The read-only snapshot one hook runs against: a hook in which the
    Kubernetes API answers the listing of the pods. *)
Record HookCtx : Type := {
  config : Config;
  app_name : string;            (* [self.model.app.name] *)
  model_name : string;          (* [self.model.name] *)
  planned_units : Z;            (* [self.model.app.planned_units()] *)
  is_leader : bool;             (* [self.unit.is_leader()] *)
  can_connect : bool;           (* [self.workload.can_connect()] *)
  restart_failure : option exn;
    (* what pebble answers to [restart] in this hook: [None] when the
       change succeeds, [Some e] when the call raises e: [ChangeError]
       when the change fails, [APIError] or [ConnectionError] when pebble
       refuses the request or cannot be reached *)
  cluster_pods : list Pod;
    (* the pods of the Kubernetes cluster, as the API lists them in
       this hook *)
  set_iteration : gset string -> list string;
    (* the order in which this process walks a set of str: Python's
       str hashes are seeded per process, so the order is the hook's *)
  set_iteration_perm : forall X, set_iteration X ≡ₚ elements X
    (* whatever the order, each member is met once *)
}.

(** A Kubernetes Service object as [_construct_service] fills it. *)
Record K8sService : Type := {
  ks_name : string;
  ks_namespace : string;
  ks_labels : gmap string string;
  ks_ports : list ServicePort;
  ks_selector : gmap string string;
  ks_type : string
}.

(** What a hook can change. *)
Record State : Type := {
  files : gmap string string;             (* workload files: path to text *)
  plan_services : gmap string Service;    (* [workload.get_plan().services] *)
  databags : gmap nat (gmap string string);
    (* relation id to this application's databag on that relation *)
  unit_status : Status;
  app_status : Status;
  opened_ports : list Port;
  k8s_services : list K8sService          (* the Service objects managed *)
}.

(** Field updates of the state. *)
Definition with_files (f : gmap string string) (s : State) : State :=
  {| files := f; plan_services := plan_services s; databags := databags s;
     unit_status := unit_status s; app_status := app_status s;
     opened_ports := opened_ports s; k8s_services := k8s_services s |}.

Definition with_plan_services (p : gmap string Service) (s : State) : State :=
  {| files := files s; plan_services := p; databags := databags s;
     unit_status := unit_status s; app_status := app_status s;
     opened_ports := opened_ports s; k8s_services := k8s_services s |}.

Definition with_databags (d : gmap nat (gmap string string)) (s : State) : State :=
  {| files := files s; plan_services := plan_services s; databags := d;
     unit_status := unit_status s; app_status := app_status s;
     opened_ports := opened_ports s; k8s_services := k8s_services s |}.

Definition with_unit_status (st : Status) (s : State) : State :=
  {| files := files s; plan_services := plan_services s; databags := databags s;
     unit_status := st; app_status := app_status s;
     opened_ports := opened_ports s; k8s_services := k8s_services s |}.

Definition with_app_status (st : Status) (s : State) : State :=
  {| files := files s; plan_services := plan_services s; databags := databags s;
     unit_status := unit_status s; app_status := st;
     opened_ports := opened_ports s; k8s_services := k8s_services s |}.

Definition with_opened_ports (ps : list Port) (s : State) : State :=
  {| files := files s; plan_services := plan_services s; databags := databags s;
     unit_status := unit_status s; app_status := app_status s;
     opened_ports := ps; k8s_services := k8s_services s |}.

Definition with_k8s_services (l : list K8sService) (s : State) : State :=
  {| files := files s; plan_services := plan_services s; databags := databags s;
     unit_status := unit_status s; app_status := app_status s;
     opened_ports := opened_ports s; k8s_services := l |}.

(** The side effects of a hook, in call order. *)
Inductive Effect : Type :=
| EPush (path text : string)
| EAddLayer (label : string) (layer : Layer)
| ERestart (service : string)
| ESetPorts (ports : list Port)
| ERelationSet (relation_id : nat) (key value : string)
| EPublish (relation_id : option nat) (endpoints : list (string * json))
| EReconcile (resources : list K8sService)
| EUnitStatus (s : Status)
| EAppStatus (s : Status).

(** ** The hook monad: state, effect log, exceptions *)

Inductive Outcome (A : Type) : Type :=
| Returns (a : A)
| Raises (e : exn).
Arguments Returns {A} a.
Arguments Raises {A} e.

Record Run (A : Type) : Type := {
  outcome : Outcome A;
  final : State;
  effects : list Effect
}.
Arguments outcome {A} r.
Arguments final {A} r.
Arguments effects {A} r.

Definition M (A : Type) : Type := State -> Run A.

Definition ret {A} (a : A) : M A :=
  fun s => {| outcome := Returns a; final := s; effects := [] |}.

Definition bind {A B} (m : M A) (f : A -> M B) : M B :=
  fun s =>
    match m s with
    | {| outcome := Returns a; final := s1; effects := e1 |} =>
        match f a s1 with
        | {| outcome := o; final := s2; effects := e2 |} =>
            {| outcome := o; final := s2; effects := e1 ++ e2 |}
        end
    | {| outcome := Raises e; final := s1; effects := e1 |} =>
        {| outcome := Raises e; final := s1; effects := e1 |}
    end.

Definition raise {A} (e : exn) : M A :=
  fun s => {| outcome := Raises e; final := s; effects := [] |}.

(** [try: m  except <classes> as e: h e]: an exception the classes do
    not cover propagates. *)
Definition try_except {A} (m : M A) (catches : exn -> bool) (h : exn -> M A) : M A :=
  fun s =>
    match m s with
    | {| outcome := Returns a; final := s1; effects := e1 |} =>
        {| outcome := Returns a; final := s1; effects := e1 |}
    | {| outcome := Raises e; final := s1; effects := e1 |} =>
        if catches e then
          match h e s1 with
          | {| outcome := o; final := s2; effects := e2 |} =>
              {| outcome := o; final := s2; effects := e1 ++ e2 |}
          end
        else {| outcome := Raises e; final := s1; effects := e1 |}
    end.

Definition get_state : M State :=
  fun s => {| outcome := Returns s; final := s; effects := [] |}.

(** One primitive action: log the effect, update the state. *)
Definition act (e : Effect) (f : State -> State) : M unit :=
  fun s => {| outcome := Returns tt; final := f s; effects := [e] |}.

Declare Scope hook_scope.
Delimit Scope hook_scope with hook.
Notation "x <- m ;; k" := (bind m (fun x => k))
  (at level 100, m at next level, right associativity) : hook_scope.
Notation "m ;; k" := (bind m (fun _ => k))
  (at level 100, right associativity) : hook_scope.
Local Open Scope hook_scope.

(** ** The workload container and the Kubernetes client *)

Definition CONSUL_CONFIG_PATH : string := "/consul/config/server.json".

(** [self.name = "consul"]: the container and the pebble service. *)
Definition self_name : string := "consul".

(** [container.pull(path).read()]: pebble raises [PathError] for a path
    that does not exist. *)
Definition workload_pull (path : string) : M string :=
  s <- get_state ;;
  match files s !! path with
  | Some text => ret text
  | None => raise (PathError ("not-found - stat " +:+ path))
  end.

(** [container.push(path, text, make_dirs=True)]. *)
Definition workload_push (path text : string) : M unit :=
  act (EPush path text) (fun s => with_files (<[path := text]> (files s)) s).

(** [container.get_plan().services]. *)
Definition workload_get_plan_services : M (gmap string Service) :=
  s <- get_state ;; ret (plan_services s).

(** [container.add_layer(label, layer, combine=True)]: the services of the
    layer (all declared with [override: replace]) take the place of the
    plan's services of the same name; the other services of the plan
    stay. *)
Definition workload_add_layer (label : string) (layer : Layer) : M unit :=
  act (EAddLayer label layer)
      (fun s => with_plan_services (layer_services layer ∪ plan_services s) s).

(** [container.restart(name)]: the call is made, and pebble answers with
    success or with one of its errors. *)
Definition workload_restart (self : HookCtx) (service : string) : M unit :=
  fun s =>
    {| outcome := match restart_failure self with
                  | None => Returns tt
                  | Some e => Raises e
                  end;
       final := s;
       effects := [ERestart service] |}.

(** [self.unit.set_ports(...)]. *)
Definition unit_set_ports (ports : list Port) : M unit :=
  act (ESetPorts ports) (with_opened_ports ports).

Definition set_unit_status (st : Status) : M unit :=
  act (EUnitStatus st) (with_unit_status st).

Definition set_app_status (st : Status) : M unit :=
  act (EAppStatus st) (with_app_status st).

(** [relation.data[self.charm.app][key] = value] on the relation [rid]. *)
Definition relation_set (rid : nat) (key value : string) : M unit :=
  act (ERelationSet rid key value)
      (fun s =>
         with_databags
           (<[rid := <[key := value]> (default ∅ (databags s !! rid))]> (databags s))
           s).

(** [klm.reconcile(resources)] of lightkube_extensions: the managed
    objects become exactly the given ones. *)
Definition klm_reconcile (resources : list K8sService) : M unit :=
  act (EReconcile resources) (with_k8s_services resources).

(** [json.loads(text)] in the monad. *)
Definition py_json_loads `{JsonCodec} (text : string) : M json :=
  match json_loads text with
  | Some v => ret v
  | None => raise JSONDecodeError
  end.

(** [Client().list(Pod, namespace=..., labels={key: value})]: the pods of
    the namespace that carry the label. *)
Definition client_list_pods (self : HookCtx) (namespace key value : string) : list Pod :=
  List.filter
    (fun p => String.eqb (pod_namespace p) namespace &&
              bool_decide (pod_labels p !! key = Some value))
    (cluster_pods self).

(** ** charm.py: the methods both charm files share word for word *)

Section CharmCommon.
Context `{JsonCodec}.
Variable self : HookCtx.

(** [get_consul_ports]. *)
Definition get_consul_ports : Ports :=
  {| dns := -1;
     http := 8500;
     https := -1;
     grpc := -1;
     grpc_tls := -1;
     serf_lan :=
       if truthy (cfg_expose_gossip_and_rpc_ports (config self))
       then cfg_serflan_node_port (config self)
       else 8301;
     serf_wan := -1;
     server := 8300;
     sidecar_min_port := 0;
     sidecar_max_port := 0;
     expose_min_port := 0;
     expose_max_port := 0 |}.

(** [self.ports], assigned once in [__init__]. *)
Definition ports : Ports := get_consul_ports.

(** [open_ports]. *)
Definition open_ports : M (option KubernetesServicePatch) :=
  if negb (truthy (cfg_expose_gossip_and_rpc_ports (config self))) then
    unit_set_ports
      [ {| port_protocol := "tcp"; port_number := serf_lan ports |};
        {| port_protocol := "udp"; port_number := serf_lan ports |};
        {| port_protocol := "tcp"; port_number := http ports |} ] ;;
    ret None
  else
    let node_ports :=
      [ {| sp_port := serf_lan ports;
           sp_name := "juju-" +:+ pretty (serf_lan ports) +:+ "-tcp";
           sp_protocol := "TCP";
           sp_nodePort := Some (serf_lan ports);
           sp_targetPort := None |};
        {| sp_port := serf_lan ports;
           sp_name := "juju-" +:+ pretty (serf_lan ports) +:+ "-udp";
           sp_protocol := "UDP";
           sp_nodePort := Some (serf_lan ports);
           sp_targetPort := None |};
        {| sp_port := http ports;
           sp_name := "juju-" +:+ pretty (http ports) +:+ "-tcp";
           sp_protocol := "TCP";
           sp_nodePort := None;
           sp_targetPort := Some (http ports) |} ] in
    ret (Some {| ksp_ports := node_ports;
                 ksp_service_name := app_name self;
                 ksp_service_type := "NodePort" |}).

(** [_update_status]. *)
Definition _update_status (status : Status) : M unit :=
  (if is_leader self then set_app_status status else ret tt) ;;
  set_unit_status status.

(** [_pebble_layer]. *)
Definition _pebble_layer : Layer :=
  let command := "consul agent -config-file " +:+ CONSUL_CONFIG_PATH in
  {| layer_summary := "consul layer";
     layer_description := "pebble config layer for the consul";
     layer_services :=
       {[ self_name := {| svc_override := "replace";
                          svc_summary := "consul";
                          svc_command := command;
                          svc_startup := "enabled" |} ]} |}.

(** [_update_pebble_layer]. *)
Definition _update_pebble_layer : M bool :=
  current_layer_services <- workload_get_plan_services ;;
  if bool_decide (current_layer_services = layer_services _pebble_layer) then
    ret false
  else
    workload_add_layer self_name _pebble_layer ;;
    ret true.

(** [_running_consul_config]. *)
Definition _running_consul_config : M json :=
  if negb (can_connect self) then ret (JDict [])
  else
    try_except
      (text <- workload_pull CONSUL_CONFIG_PATH ;; py_json_loads text)
      (fun e => is_FileNotFoundError e || is_pebble_Error e)
      (fun _ => ret (JDict [])).

(** The loop of [_get_hostips_for_consul_service]. *)
Fixpoint collect_hostips (pods : list Pod) (hostips : gset string) : gset string :=
  match pods with
  | [] => hostips
  | pod :: rest =>
      match pod_status pod with
      | Some {| hostIP := Some hostip |} =>
          if negb (String.eqb hostip "")
          then collect_hostips rest (hostips ∪ {[ hostip ]})
          else collect_hostips rest hostips
      | _ => collect_hostips rest hostips
      end
  end.

(** [_get_hostips_for_consul_service]. *)
Definition _get_hostips_for_consul_service (app namespace : string) : gset string :=
  let pods := client_list_pods self namespace "app.kubernetes.io/name" app in
  collect_hostips pods ∅.

(** [[f"{ip_address}:{self.ports.serf_lan}" for ip_address in ip_addresses]]:
    the set is walked in the order of the hook's process. *)
Definition hostip_addresses (ip_addresses : gset string) : list string :=
  (fun ip_address => ip_address +:+ ":" +:+ pretty (serf_lan ports))
    <$> set_iteration self ip_addresses.
End CharmCommon.

(** ** src/charm/src/charm.py *)

Module Charm.
Section Charm.
Context `{JsonCodec}.
Variable self : HookCtx.

(** [_get_internal_join_addresses]. *)
Definition _get_internal_join_addresses : list string :=
  [ app_name self +:+ "." +:+ model_name self +:+ ".svc:" +:+
    pretty (serf_lan (ports self)) ].

(** [_get_external_join_addresses]. *)
Definition _get_external_join_addresses : option (list string) :=
  if truthy (cfg_expose_gossip_and_rpc_ports (config self)) then
    let ip_addresses :=
      _get_hostips_for_consul_service self (app_name self) (model_name self) in
    Some (hostip_addresses self ip_addresses)
  else None.

(** [_get_internal_http_endpoint]. *)
Definition _get_internal_http_endpoint : string :=
  app_name self +:+ "." +:+ model_name self +:+ ".svc:" +:+
  pretty (http (ports self)).

(** [_get_exernal_http_endpoint]. *)
Definition _get_exernal_http_endpoint : option string := None.

(** The document [_update_consul_config] builds. *)
Definition consul_config : json :=
  let datacenter := cfg_datacenter (config self) in
  let number_of_units := planned_units self in
  let join_addresses := _get_internal_join_addresses in
  let tls_certificates : gmap string string :=
    {[ "ca_certificate_path" := "/consul/config/certs/ca.pem";
       "server_certificate_path" := "/consul/config/certs/server-cert.pem";
       "server_key_path" := "/consul/config/certs/server-key.pem" ]} in
  build (new_ConsulConfigBuilder (ports self) datacenter number_of_units
           join_addresses (Some tls_certificates)).

(** [_update_consul_config]. *)
Definition _update_consul_config : M bool :=
  running <- _running_consul_config self ;;
  if py_eq running consul_config then ret false
  else
    workload_push CONSUL_CONFIG_PATH (json_dumps (Some 2%nat) consul_config) ;;
    ret true.

Definition opt_json {A} (f : A -> json) (o : option A) : json :=
  match o with Some a => f a | None => JNull end.

(** Modelled from the spec: [ConsulServiceProvider.set_cluster_endpoints]
    is what this charm imports from the consul_cluster library, and the
    library under src/lib is the earlier one ([ConsulConfigProvider]).
    The spec (ReconcileLoop step 5, EndpointSet) says the endpoint set
    is handed to the one relation of the request or to every related
    application, and that publication is a no-op unless the unit is the
    leader.  The call is logged as [EPublish] with its arguments under
    the EndpointSet's field names; the databag keys it writes are not
    modelled. *)
Definition set_cluster_endpoints (relation : option nat) (datacenter : string)
    (internal_join_addresses : list string)
    (external_join_addresses : option (list string))
    (internal_http_endpoint : string)
    (external_http_endpoint : option string) : M unit :=
  if negb (is_leader self) then ret tt
  else
    act (EPublish relation
           [ ("datacenter", JStr datacenter);
             ("internal_join_addresses",
               JList (JStr <$> internal_join_addresses));
             ("external_join_addresses",
               opt_json (fun l => JList (JStr <$> l)) external_join_addresses);
             ("internal_http_endpoint", JStr internal_http_endpoint);
             ("external_http_endpoint",
               opt_json JStr external_http_endpoint) ])
        (fun s => s).

(** [_set_endpoints_on_related_apps]: [event] is the relation of the
    request, or [None]. *)
Definition _set_endpoints_on_related_apps (event : option nat) : M unit :=
  let datacenter := cfg_datacenter (config self) in
  let internal_join_addresses := _get_internal_join_addresses in
  let external_join_addresses := _get_external_join_addresses in
  let internal_http_endpoint := _get_internal_http_endpoint in
  let external_http_endpoint := _get_exernal_http_endpoint in
  let relation := event in
  set_cluster_endpoints relation datacenter internal_join_addresses
    external_join_addresses internal_http_endpoint external_http_endpoint.

(** [_configure].  The [return] inside [except] is the [false] the
    restart step answers. *)
Definition _configure : M unit :=
  if negb (can_connect self) then
    _update_status self (WaitingStatus "Waiting for Pebble ready")
  else
    consul_config_changed <- _update_consul_config ;;
    pebble_layer_changed <- _update_pebble_layer ;;
    let restart := consul_config_changed || pebble_layer_changed in
    go_on <- (if restart then
                try_except
                  (workload_restart self self_name ;; ret true)
                  is_ChangeError
                  (fun e =>
                     let msg := "Failed to restart Consul: " +:+ exn_str e in
                     _update_status self (BlockedStatus msg) ;;
                     ret false)
              else ret true) ;;
    if go_on then
      _set_endpoints_on_related_apps None ;;
      _update_status self (ActiveStatus "")
    else ret tt.

Definition _on_consul_pebble_ready : M unit := _configure.

(** [_on_config_changed]: the range check of serflan-node-port is a
    TODO comment in the source. *)
Definition _on_config_changed : M unit := _configure.

Definition _on_upgrade : M unit := _configure.

Definition _on_endpoints_request (relation : nat) : M unit :=
  _set_endpoints_on_related_apps (Some relation).

(** The events of the reconcile loop (the certificate events of the
    same file are left out). *)
Inductive Event : Type :=
| consul_pebble_ready
| config_changed
| upgrade_charm
| endpoints_request (relation : nat).

(** One hook: [__init__] (which opens the ports), then the handler
    observed for the event. *)
Definition hook (ev : Event) : M (option KubernetesServicePatch) :=
  service_patch <- open_ports self ;;
  match ev with
  | consul_pebble_ready => _on_consul_pebble_ready
  | config_changed => _on_config_changed
  | upgrade_charm => _on_upgrade
  | endpoints_request r => _on_endpoints_request r
  end ;;
  ret service_patch.
End Charm.
End Charm.


(** ** lib/charms/consul_k8s/v0/consul_cluster.py *)

(** [ConsulConfigProviderAppData], a pydantic model.  Both fields are
    declared with [Field("...")], whose first positional argument is the
    field's default: a key that is missing takes that text as its value
    (defaults are not validated).  A [server_join_addresses] that is
    given goes through [convert_str_to_list_of_str] and must then be a
    list of str. *)
Record ConsulConfigProviderAppData : Type := {
  data_datacenter : string;
  data_server_join_addresses : json
}.

Section AppData.
Context `{JsonCodec}.

(** [convert_str_to_list_of_str] on a databag value (always a str):
    [None] is the [ValueError("Field not in json format")]. *)
Definition convert_str_to_list_of_str (v : string) : option json :=
  json_loads v.

(** pydantic's check of [list[str]]: a list whose items are all str. *)
Fixpoint all_str (l : list json) : option (list string) :=
  match l with
  | [] => Some []
  | JStr s :: rest => cons s <$> all_str rest
  | _ :: _ => None
  end.

Definition as_list_of_str (v : json) : option (list string) :=
  match v with
  | JList l => all_str l
  | _ => None
  end.

(** The model built from the databag's items as keyword arguments:
    [None] is pydantic's
    [ValidationError].  Keys the model does not declare are ignored. *)
Definition new_ConsulConfigProviderAppData (databag : gmap string string)
    : option ConsulConfigProviderAppData :=
  let datacenter := default "Datacenter cluster name" (databag !! "datacenter") in
  match databag !! "server_join_addresses" with
  | None =>
      Some {| data_datacenter := datacenter;
              data_server_join_addresses := JStr "Consul server join addresses" |}
  | Some v =>
      l ← convert_str_to_list_of_str v ≫= as_list_of_str;
      Some {| data_datacenter := datacenter;
              data_server_join_addresses := JList (JStr <$> l) |}
  end.

(** [data.model_dump()]. *)
Definition model_dump (data : ConsulConfigProviderAppData) : gmap string json :=
  {[ "datacenter" := JStr (data_datacenter data);
     "server_join_addresses" := data_server_join_addresses data ]}.
End AppData.

Module Requirer.

(** The relation as the requirer sees it: its id and the application
    databag of the remote (provider) application. *)
Record Relation : Type := {
  rel_id : nat;
  rel_app_data : gmap string string
}.

(** The framework's relation events and the library's own events. *)
Inductive RelationEventKind : Type := relation_changed | relation_broken.

Inductive Emitted : Type :=
| config_changed (relation : nat)     (* [ClusterConfigChangedEvent] *)
| goneaway.                           (* [ClusterServerGoneAwayEvent] *)

Inductive Method : Type := m_on_relation_changed | m_on_relation_broken.

(** [ConsulConfigRequirer.__init__]: the two [framework.observe] calls. *)
Definition observers : list (RelationEventKind * Method) :=
  [ (relation_changed, m_on_relation_changed);
    (relation_broken, m_on_relation_changed) ].

Section Requirer.
Context `{JsonCodec}.

(** [self._consul_cluster_rel]: [model.get_relation(relation_name)]. *)
Variable _consul_cluster_rel : option Relation.

(** [_validate_databag_from_relation]. *)
Definition _validate_databag_from_relation : bool :=
  match _consul_cluster_rel with
  | Some rel =>
      match new_ConsulConfigProviderAppData (rel_app_data rel) with
      | Some _ => true
      | None => false                  (* [except ValidationError] *)
      end
  | None => true
  end.

(** [_get_app_databag_from_relation]. *)
Definition _get_app_databag_from_relation : gmap string json :=
  match _consul_cluster_rel with
  | Some rel =>
      match new_ConsulConfigProviderAppData (rel_app_data rel) with
      | Some data => model_dump data
      | None => ∅                      (* [except ValidationError] *)
      end
  | None => ∅
  end.

(** The property [datacenter]. *)
Definition datacenter : option json :=
  _get_app_databag_from_relation !! "datacenter".

(** The property [server_join_addresses]. *)
Definition server_join_addresses : option json :=
  _get_app_databag_from_relation !! "server_join_addresses".

(** [_on_relation_changed]: [event] carries the relation's id. *)
Definition _on_relation_changed (event : nat) : list Emitted :=
  if _validate_databag_from_relation then [config_changed event] else [].

(** [_on_relation_broken]. *)
Definition _on_relation_broken (event : nat) : list Emitted :=
  [goneaway].

Definition call (m : Method) (event : nat) : list Emitted :=
  match m with
  | m_on_relation_changed => _on_relation_changed event
  | m_on_relation_broken => _on_relation_broken event
  end.

Definition kind_eqb (a b : RelationEventKind) : bool :=
  match a, b with
  | relation_changed, relation_changed | relation_broken, relation_broken => true
  | _, _ => false
  end.

(** The framework delivers an event to every observer registered for
    its kind, in registration order. *)
Definition dispatch (kind : RelationEventKind) (event : nat) : list Emitted :=
  flat_map (fun o => if kind_eqb (fst o) kind then call (snd o) event else [])
           observers.
End Requirer.

(** A history of relation events, each with the relation as the model
    shows it when the event is delivered. *)
Definition run_events `{JsonCodec}
    (history : list (RelationEventKind * nat * option Relation)) : list Emitted :=
  flat_map (fun '(kind, event, rel) => dispatch rel kind event) history.
End Requirer.

Module Provider.
Section Provider.
Context `{JsonCodec}.
Variable self : HookCtx.

(** The two assignments to [relation.data[self.charm.app]]. *)
Definition write_config (rid : nat) (datacenter server_addresses : string) : M unit :=
  relation_set rid "datacenter" datacenter ;;
  relation_set rid "server_join_addresses" server_addresses.

(** [for relation in self.framework.model.relations[self.relation_name]]. *)
Fixpoint write_config_all (rids : list nat) (datacenter server_addresses : string)
    : M unit :=
  match rids with
  | [] => ret tt
  | rid :: rest =>
      write_config rid datacenter server_addresses ;;
      write_config_all rest datacenter server_addresses
  end.

(** [set_cluster_config].  The arguments are a str and a list of str,
    which [ConsulConfigProviderAppData] accepts as they are, so the
    [except ValidationError] branch is not taken. *)
Definition set_cluster_config (relation : option nat) (datacenter : string)
    (server_join_addresses : list string) : M unit :=
  if negb (is_leader self) then ret tt
  else
    let server_addresses :=
      json_dumps None (JList (JStr <$> server_join_addresses)) in
    match relation with
    | None =>
        s <- get_state ;;
        write_config_all (elements (dom (databags s))) datacenter server_addresses
    | Some rid => write_config rid datacenter server_addresses
    end.
End Provider.
End Provider.

(** ** src/src/charm.py, the earlier charm *)

Module Legacy.
Section Legacy.
Context `{JsonCodec}.
Variable self : HookCtx.

(** [_get_join_addesses]. *)
Definition _get_join_addesses (internal_use : bool) : list string :=
  if truthy (cfg_expose_gossip_and_rpc_ports (config self)) && negb internal_use then
    let ip_addresses :=
      _get_hostips_for_consul_service self (app_name self) (model_name self) in
    hostip_addresses self ip_addresses
  else
    [ app_name self +:+ "." +:+ model_name self +:+ ".svc:" +:+
      pretty (serf_lan (ports self)) ].

(** Modelled from the spec: the document [_update_consul_config] builds.
    The module config_builder that src/src/charm.py imports is not under
    src/. The spec (4.2 ConfigBuilder, and RenderedConfig in the data
    model) describes [build(ports, datacenter, replicaCount,
    joinAddresses, tlsPaths?)] as rendering bind address, datacenter,
    quorum hint, ports, join addresses, TLS file paths and the feature
    toggles forced off, with fixed default certificate paths when
    tlsPaths is absent. The builder of src/charm/src/config_builder.py,
    which does that, stands in for it, called as src/src/charm.py calls
    it: with four arguments and no certificate paths. *)
Definition consul_config : json :=
  let datacenter := cfg_datacenter (config self) in
  let number_of_units := planned_units self in
  let join_addresses := _get_join_addesses true in
  build (new_ConsulConfigBuilder (ports self) datacenter number_of_units
           join_addresses None).

(** [_update_consul_config]. *)
Definition _update_consul_config : M bool :=
  running <- _running_consul_config self ;;
  if py_eq running consul_config then ret false
  else
    workload_push CONSUL_CONFIG_PATH (json_dumps None consul_config) ;;
    ret true.

(** [_set_config_on_related_apps]. *)
Definition _set_config_on_related_apps (event : option nat) : M unit :=
  let datacenter := cfg_datacenter (config self) in
  let server_addresses := _get_join_addesses false in
  match event with
  | Some relation =>
      Provider.set_cluster_config self (Some relation) datacenter server_addresses
  | None =>
      Provider.set_cluster_config self None datacenter server_addresses
  end.

(** [_configure]. *)
Definition _configure : M unit :=
  if negb (can_connect self) then
    _update_status self (WaitingStatus "Waiting for Pebble ready")
  else
    consul_config_changed <- _update_consul_config ;;
    pebble_layer_changed <- _update_pebble_layer ;;
    let restart := consul_config_changed || pebble_layer_changed in
    go_on <- (if restart then
                try_except
                  (workload_restart self self_name ;; ret true)
                  is_ChangeError
                  (fun e =>
                     let msg := "Failed to restart Consul: " +:+ exn_str e in
                     _update_status self (BlockedStatus msg) ;;
                     ret false)
              else ret true) ;;
    if go_on then
      _set_config_on_related_apps None ;;
      _update_status self (ActiveStatus "")
    else ret tt.

Definition _on_consul_pebble_ready : M unit := _configure.
Definition _on_config_changed : M unit := _configure.
Definition _on_upgrade : M unit := _configure.
Definition _on_config_request (relation : nat) : M unit :=
  _set_config_on_related_apps (Some relation).
End Legacy.
End Legacy.

(** ** src/charm/src/k8s_resource_handlers.py *)

Module K8sHandler.

Inductive ServiceType : Type := NodePort | LoadBalancer.

Definition ServiceType_value (t : ServiceType) : string :=
  match t with NodePort => "NodePort" | LoadBalancer => "LoadBalancer" end.

Record KubernetesServiceHandler : Type := {
  _service_ports : list ServicePort;
  _service_type : ServiceType
}.

Section K8sHandler.
Variable charm : HookCtx.
Variable self : KubernetesServiceHandler.

Definition _service_name : string := app_name charm +:+ "-lb".

(** [_construct_service]. *)
Definition _construct_service : K8sService :=
  {| ks_name := _service_name;
     ks_namespace := model_name charm;
     ks_labels := {[ "app.kubernetes.io/name" := app_name charm ]};
     ks_ports := _service_ports self;
     ks_selector := {[ "app.kubernetes.io/name" := app_name charm ]};
     ks_type := ServiceType_value (_service_type self) |}.

(** [_reconcile_service]. *)
Definition _reconcile_service : M unit :=
  if negb (is_leader charm) then ret tt
  else
    let resources_list := [_construct_service] in
    klm_reconcile resources_list.
End K8sHandler.
End K8sHandler.

(** ** A reference JSON codec

    An executable instance of [JsonCodec] for printable ASCII text and
    integer numbers, laid out as [json.dumps] lays its output out.  The
    theorems below hold for every codec; this one runs them on concrete
    hooks. *)

Module RefJson.

Definition quote : ascii := "034"%char.
Definition backslash : ascii := "092"%char.
Definition newline : string := String "010"%char "".

Fixpoint spaces (n : nat) : string :=
  match n with
  | O => ""
  | S n' => String " "%char (spaces n')
  end.

(** A str between quotes, with the two-character escapes. *)
Fixpoint escape (s : string) : string :=
  match s with
  | EmptyString => ""
  | String c r =>
      if Ascii.eqb c quote then String backslash (String quote (escape r))
      else if Ascii.eqb c backslash then String backslash (String backslash (escape r))
      else if Ascii.eqb c "010"%char then String backslash (String "n"%char (escape r))
      else if Ascii.eqb c "013"%char then String backslash (String "r"%char (escape r))
      else if Ascii.eqb c "009"%char then String backslash (String "t"%char (escape r))
      else String c (escape r)
  end.

Definition dump_str (s : string) : string :=
  String quote (escape s) +:+ String quote "".

(** The separators of [json.dumps]: [", "] and [": "] on one line, and
    with [indent=k] one item per line, k spaces deeper per level. *)
Definition item_start (indent : option nat) (level : nat) : string :=
  match indent with
  | None => ""
  | Some k => newline +:+ spaces (k * S level)
  end.

Definition item_sep (indent : option nat) (level : nat) : string :=
  match indent with
  | None => ", "
  | Some k => "," +:+ newline +:+ spaces (k * S level)
  end.

Definition items_end (indent : option nat) (level : nat) : string :=
  match indent with
  | None => ""
  | Some k => newline +:+ spaces (k * level)
  end.

Fixpoint dump (indent : option nat) (level : nat) (v : json) {struct v} : string :=
  match v with
  | JNull => "null"
  | JBool true => "true"
  | JBool false => "false"
  | JInt n => pretty n
  | JStr s => dump_str s
  | JList [] => "[]"
  | JList (x :: xs) =>
      "[" +:+ item_start indent level +:+ dump indent (S level) x +:+
      (fix rest (l : list json) : string :=
         match l with
         | [] => ""
         | y :: ys => item_sep indent level +:+ dump indent (S level) y +:+ rest ys
         end) xs +:+
      items_end indent level +:+ "]"
  | JDict [] => "{}"
  | JDict ((k, x) :: xs) =>
      "{" +:+ item_start indent level +:+
      dump_str k +:+ ": " +:+ dump indent (S level) x +:+
      (fix rest (l : list (string * json)) : string :=
         match l with
         | [] => ""
         | (k', y) :: ys =>
             item_sep indent level +:+ dump_str k' +:+ ": " +:+
             dump indent (S level) y +:+ rest ys
         end) xs +:+
      items_end indent level +:+ "}"
  end.

Definition dumps (indent : option nat) (v : json) : string := dump indent 0 v.

Definition is_ws (c : ascii) : bool :=
  Ascii.eqb c " "%char || Ascii.eqb c "010"%char ||
  Ascii.eqb c "013"%char || Ascii.eqb c "009"%char.

Fixpoint skip_ws (s : string) : string :=
  match s with
  | String c r => if is_ws c then skip_ws r else s
  | EmptyString => s
  end.

(** After the opening quote: the str read so far (reversed) and the
    text left; answers the str and what follows the closing quote. *)
Fixpoint parse_str (s : string) (acc : list ascii) : option (string * string) :=
  match s with
  | EmptyString => None
  | String c r =>
      if Ascii.eqb c quote then Some (string_of_list_ascii (rev acc), r)
      else if Ascii.eqb c backslash then
        match r with
        | String e r' =>
            if Ascii.eqb e quote then parse_str r' (quote :: acc)
            else if Ascii.eqb e backslash then parse_str r' (backslash :: acc)
            else if Ascii.eqb e "n"%char then parse_str r' ("010"%char :: acc)
            else if Ascii.eqb e "r"%char then parse_str r' ("013"%char :: acc)
            else if Ascii.eqb e "t"%char then parse_str r' ("009"%char :: acc)
            else None
        | EmptyString => None
        end
      else parse_str r (c :: acc)
  end.

Definition digit_of (c : ascii) : option Z :=
  let n := Z.of_nat (nat_of_ascii c) in
  if (48 <=? n) && (n <=? 57) then Some (n - 48) else None.

(** Digits from the left: the number read so far, whether a digit was
    read, and the text left. *)
Fixpoint parse_digits (s : string) (acc : Z) (seen : bool) : option (Z * string) :=
  match s with
  | String c r =>
      match digit_of c with
      | Some d => parse_digits r (10 * acc + d) true
      | None => if seen then Some (acc, s) else None
      end
  | EmptyString => if seen then Some (acc, s) else None
  end.

Definition starts_with (p s : string) : option string :=
  if String.prefix p s
  then Some (String.substring (String.length p) (String.length s - String.length p) s)
  else None.

Fixpoint parse_value (fuel : nat) (s : string) {struct fuel} : option (json * string) :=
  match fuel with
  | O => None
  | S n =>
      match skip_ws s with
      | EmptyString => None
      | String c r =>
          if Ascii.eqb c quote then
            '(str, r') ← parse_str r []; Some (JStr str, r')
          else if Ascii.eqb c "["%char then
            match skip_ws r with
            | String c' r' =>
                if Ascii.eqb c' "]"%char then Some (JList [], r')
                else '(l, r'') ← parse_items n r; Some (JList l, r'')
            | EmptyString => None
            end
          else if Ascii.eqb c "{"%char then
            match skip_ws r with
            | String c' r' =>
                if Ascii.eqb c' "}"%char then Some (JDict [], r')
                else '(l, r'') ← parse_members n r; Some (JDict l, r'')
            | EmptyString => None
            end
          else if Ascii.eqb c "-"%char then
            '(z, r') ← parse_digits r 0 false; Some (JInt (- z), r')
          else
            match starts_with "null" (String c r),
                  starts_with "true" (String c r),
                  starts_with "false" (String c r) with
            | Some r', _, _ => Some (JNull, r')
            | _, Some r', _ => Some (JBool true, r')
            | _, _, Some r' => Some (JBool false, r')
            | _, _, _ =>
                '(z, r') ← parse_digits (String c r) 0 false; Some (JInt z, r')
            end
      end
  end
with parse_items (fuel : nat) (s : string) {struct fuel} : option (list json * string) :=
  match fuel with
  | O => None
  | S n =>
      '(v, r) ← parse_value n s;
      match skip_ws r with
      | String c r' =>
          if Ascii.eqb c ","%char then
            '(l, r'') ← parse_items n r'; Some (v :: l, r'')
          else if Ascii.eqb c "]"%char then Some ([v], r')
          else None
      | EmptyString => None
      end
  end
with parse_members (fuel : nat) (s : string) {struct fuel}
    : option (list (string * json) * string) :=
  match fuel with
  | O => None
  | S n =>
      match skip_ws s with
      | String c r =>
          if Ascii.eqb c quote then
            '(k, r1) ← parse_str r [];
            match skip_ws r1 with
            | String c1 r2 =>
                if Ascii.eqb c1 ":"%char then
                  '(v, r3) ← parse_value n r2;
                  match skip_ws r3 with
                  | String c3 r4 =>
                      if Ascii.eqb c3 ","%char then
                        '(l, r5) ← parse_members n r4; Some ((k, v) :: l, r5)
                      else if Ascii.eqb c3 "}"%char then Some ([(k, v)], r4)
                      else None
                  | EmptyString => None
                  end
                else None
            | EmptyString => None
            end
          else None
      | EmptyString => None
      end
  end.

(** [None] where the text is not one JSON value. *)
Definition loads (s : string) : option json :=
  '(v, r) ← parse_value (2 * String.length s + 2) s;
  match skip_ws r with
  | EmptyString => Some v
  | String _ _ => None
  end.

#[export] Instance codec : JsonCodec :=
  {| json_dumps := dumps; json_loads := loads |}.

End RefJson.

(** ** Concrete hooks *)

Module Example.

(** A pod of the application "consul-k8s" in the model "test-model". *)
Definition pod (host : string) : Pod :=
  {| pod_namespace := "test-model";
     pod_labels := {[ "app.kubernetes.io/name" := "consul-k8s" ]};
     pod_status := Some {| hostIP := Some host |} |}.

(** A hook of the unit with a reachable workload and one pod on host
    10.10.0.10; [failure] is the text of the [ChangeError] pebble
    answers a restart with, if it does. *)
Definition ctx (expose : config_value) (node_port : Z) (leader : bool)
    (failure : option string) : HookCtx :=
  {| config := {| cfg_datacenter := "test-dc";
                  cfg_expose_gossip_and_rpc_ports := expose;
                  cfg_serflan_node_port := node_port |};
     app_name := "consul-k8s";
     model_name := "test-model";
     planned_units := 1;
     is_leader := leader;
     can_connect := true;
     restart_failure := ChangeError <$> failure;
     cluster_pods := [pod "10.10.0.10"];
     set_iteration := elements;
     set_iteration_perm := fun X => Permutation_refl (elements X) |}.

(** A workload that was never configured, and one relation (id 1) with
    an empty databag. *)
Definition fresh : State :=
  {| files := ∅;
     plan_services := ∅;
     databags := {[ 1%nat := ∅ ]};
     unit_status := MaintenanceStatus "";
     app_status := MaintenanceStatus "";
     opened_ports := [];
     k8s_services := [] |}.


(** The workload with a configuration file that is not JSON. *)
Definition with_corrupt_file : State :=
  with_files {[ CONSUL_CONFIG_PATH := "{ bind_addr" ]} fresh.

End Example.

(** ** Properties of runs *)

(** What a run did, read off its effect log. *)
Definition restart_attempted {A} (r : Run A) : Prop :=
  ERestart self_name ∈ effects r.

Definition config_written {A} (r : Run A) : Prop :=
  ∃ text, EPush CONSUL_CONFIG_PATH text ∈ effects r.

Definition layer_applied {A} (r : Run A) : Prop :=
  ∃ layer, EAddLayer self_name layer ∈ effects r.

Definition is_publication (e : Effect) : bool :=
  match e with
  | EPublish _ _ | ERelationSet _ _ _ => true
  | _ => false
  end.

Definition published {A} (r : Run A) : Prop :=
  ∃ e, e ∈ effects r ∧ is_publication e = true.

(** What [_update_status] logs and leaves behind. *)
Definition status_effects (self : HookCtx) (st : Status) : list Effect :=
  (if is_leader self then [EAppStatus st] else []) ++ [EUnitStatus st].

Definition status_state (self : HookCtx) (st : Status) (s : State) : State :=
  with_unit_status st (if is_leader self then with_app_status st s else s).

(** The restart discipline of one [_configure] run [r] from the state
    [s], where [rendered] is the document the run builds and [handled]
    tells which errors of the restart the run answers with Blocked:
    - the restart is attempted exactly when the run wrote the
      configuration file or applied the layer;
    - with no configuration file in the workload the file is written;
      with a file that holds a JSON document it is written exactly when
      that document differs from the rendered one; in both cases the
      layer is applied exactly when the services of the plan differ
      from the layer's;
    - when the attempted restart raises [e], nothing is published and
      the databags are as they were; if [e] is handled the run returns,
      both statuses it sets are Blocked with a message that ends in the
      text of [e], and the restart and the status are the last things
      the run did; if [e] is not handled the run raises [e], the
      statuses are as they were and the restart is the last thing the
      run did. *)
Definition restart_discipline `{JsonCodec} (handled : exn -> bool)
    (self : HookCtx) (s : State) (rendered : json) (r : Run unit) : Prop :=
  (restart_attempted r ↔ config_written r ∨ layer_applied r) ∧
  (match files s !! CONSUL_CONFIG_PATH with
   | None =>
       config_written r ∧
       (layer_applied r ↔ plan_services s ≠ layer_services _pebble_layer)
   | Some text =>
       ∀ doc, json_loads text = Some doc →
         (config_written r ↔ py_eq doc rendered = false) ∧
         (layer_applied r ↔ plan_services s ≠ layer_services _pebble_layer)
   end) ∧
  (∀ e, restart_failure self = Some e → restart_attempted r →
     ¬ published r ∧
     databags (final r) = databags s ∧
     if handled e then
       let msg := "Failed to restart Consul: " +:+ exn_str e in
       outcome r = Returns tt ∧
       unit_status (final r) = BlockedStatus msg ∧
       (is_leader self = true → app_status (final r) = BlockedStatus msg) ∧
       ∃ before, effects r =
         before ++ ERestart self_name :: status_effects self (BlockedStatus msg)
     else
       outcome r = Raises e ∧
       unit_status (final r) = unit_status s ∧
       app_status (final r) = app_status s ∧
       ∃ before, effects r = before ++ [ERestart self_name]).

(** A cycle completed successfully: it returned and left the unit Active. *)
Definition cycle_succeeded (r : Run unit) : Prop :=
  outcome r = Returns tt ∧ unit_status (final r) = ActiveStatus "".

(** Python's json reads back the document it wrote. *)
Definition json_round_trip `{JsonCodec} (indent : option nat) (doc : json) : Prop :=
  json_loads (json_dumps indent doc) = Some doc.


(** The plan holds no service but the charm's own. *)
Definition only_consul_service (s : State) : Prop :=
  ∀ name, name ≠ self_name → plan_services s !! name = None.

(** [v.get(k)] on a document. *)
Definition json_get (k : string) (v : json) : option json :=
  match v with
  | JDict kvs => dict_get k kvs
  | _ => None
  end.

(** The persisted document as [_running_consul_config] reads it from a
    reachable workload. *)
Definition read_persisted `{JsonCodec} (s : State) : Outcome json :=
  match files s !! CONSUL_CONFIG_PATH with
  | None => Returns (JDict [])
  | Some text =>
      match json_loads text with
      | Some v => Returns v
      | None => Raises JSONDecodeError
      end
  end.

(** The restart step of [_configure], and [_configure] past the
    reachability test, over the two methods in which the charm files
    differ. *)
Definition restart_step (self : HookCtx) (restart : bool) : M bool :=
  if restart then
    try_except
      (workload_restart self self_name ;; ret true)
      is_ChangeError
      (fun e =>
         let msg := "Failed to restart Consul: " +:+ exn_str e in
         _update_status self (BlockedStatus msg) ;;
         ret false)
  else ret true.

Definition configure_shape (self : HookCtx) (update : M bool) (publish : M unit)
    : M unit :=
  consul_config_changed <- update ;;
  pebble_layer_changed <- _update_pebble_layer ;;
  go_on <- restart_step self (consul_config_changed || pebble_layer_changed) ;;
  if go_on then
    publish ;;
    _update_status self (ActiveStatus "")
  else ret tt.

(** The compare-and-write step, for a rendered document and the text
    written for it. *)
Definition update_run `{JsonCodec} (rendered : json) (text : string) (s : State) : Run bool :=
  match read_persisted s with
  | Raises e => {| outcome := Raises e; final := s; effects := [] |}
  | Returns doc =>
      if py_eq doc rendered
      then {| outcome := Returns false; final := s; effects := [] |}
      else {| outcome := Returns true;
              final := with_files (<[CONSUL_CONFIG_PATH := text]> (files s)) s;
              effects := [EPush CONSUL_CONFIG_PATH text] |}
  end.

(** The endpoint set the charm hands to the relation library. *)
Definition charm_publish_effects (self : HookCtx) : list Effect :=
  if is_leader self then
    [ EPublish None
        [ ("datacenter", JStr (cfg_datacenter (config self)));
          ("internal_join_addresses",
            JList (JStr <$> Charm._get_internal_join_addresses self));
          ("external_join_addresses",
            Charm.opt_json (fun l => JList (JStr <$> l))
              (Charm._get_external_join_addresses self));
          ("internal_http_endpoint", JStr (Charm._get_internal_http_endpoint self));
          ("external_http_endpoint",
            Charm.opt_json JStr Charm._get_exernal_http_endpoint) ] ]
  else [].

(** What the provider writes leaves everything but the databags alone. *)
Definition same_but_databags (s s' : State) : Prop :=
  files s' = files s ∧ plan_services s' = plan_services s ∧
  unit_status s' = unit_status s ∧ app_status s' = app_status s ∧
  opened_ports s' = opened_ports s ∧ k8s_services s' = k8s_services s.

(** A host IP of the application: some pod of the model that carries
    the application's label reports it, and it is not empty. *)
Definition runs_on (self : HookCtx) (ip : string) : Prop :=
  ∃ pod, pod ∈ cluster_pods self ∧
         pod_namespace pod = model_name self ∧
         pod_labels pod !! "app.kubernetes.io/name" = Some (app_name self) ∧
         pod_status pod = Some {| hostIP := Some ip |} ∧
         ip ≠ "".

(** The config-changed hook of the leader on a fresh workload, run with
    the reference codec. *)
Definition config_changed_hook (expose : config_value) (node_port : Z)
    : Run (option KubernetesServicePatch) :=
  @Charm.hook RefJson.codec (Example.ctx expose node_port true None)
    Charm.config_changed Example.fresh.

(** The serf_lan port in the configuration file a run leaves behind. *)
Definition applied_serf_lan {A} (r : Run A) : option json :=
  text ← (files (final r) !! CONSUL_CONFIG_PATH : option string);
  doc ← RefJson.loads text;
  ps ← json_get "ports" doc;
  json_get "serf_lan" ps.

(** The node ports of the Service patch a hook asks for. *)
Definition requested_node_ports (r : Run (option KubernetesServicePatch))
    : option (string * list (option Z)) :=
  match outcome r with
  | Returns (Some patch) =>
      Some (ksp_service_type patch, sp_nodePort <$> ksp_ports patch)
  | _ => None
  end.

(** ** More of the sources *)

(** The load balancer address, [KubernetesServiceHandler.get_loadbalancer_ip]
    of k8s_resource_handlers.py. *)
Module LoadBalancer.

(** The part of a Service's status the method walks through; every
    attribute may be [None]. *)
Record LoadBalancerIngress : Type := {
  ip : option string
}.

Record LoadBalancerStatus : Type := {
  ingress : option (list LoadBalancerIngress)
}.

Record ServiceStatus : Type := {
  loadBalancer : option LoadBalancerStatus
}.

(** What [lightkube_client.get(Service, name=..., namespace=...)]
    answers: [ApiError], or the object, whose status may be [None]. *)
Inductive GetService : Type :=
| ApiError
| Found (status : option ServiceStatus).

(** [get_loadbalancer_ip], for one answer of the API (the method caches
    its result for the hook). *)
Definition get_loadbalancer_ip (self : K8sHandler.KubernetesServiceHandler)
    (answer : GetService) : option string :=
  match K8sHandler._service_type self with
  | K8sHandler.NodePort => None
  | K8sHandler.LoadBalancer =>
      match answer with
      | ApiError => None
      | Found None => None
      | Found (Some status) =>
          match loadBalancer status with
          | None => None
          | Some load_balancer_status =>
              match ingress load_balancer_status with
              | None | Some [] => None
              | Some (ingress_address :: _) => ip ingress_address
              end
          end
      end
  end.

End LoadBalancer.

(** The provider's own handler and the earlier charm's hooks. *)
Module LegacyHook.

(** [ConsulConfigProvider._on_relation_changed]: the library turns a
    relation-changed event into its config_request event on the same
    relation. *)
Definition provider_on_relation_changed (relation : nat) : nat := relation.

Inductive Event : Type :=
| consul_pebble_ready
| config_changed
| upgrade_charm
| relation_changed (relation : nat).   (* on the consul-cluster relation *)

(** One hook of src/src/charm.py: [__init__] (which opens the ports),
    then the handler observed for the event. *)
Definition hook `{JsonCodec} (self : HookCtx) (ev : Event)
    : M (option KubernetesServicePatch) :=
  service_patch <- open_ports self ;;
  match ev with
  | consul_pebble_ready => Legacy._on_consul_pebble_ready self
  | config_changed => Legacy._on_config_changed self
  | upgrade_charm => Legacy._on_upgrade self
  | relation_changed r =>
      Legacy._on_config_request self (provider_on_relation_changed r)
  end ;;
  ret service_patch.

End LegacyHook.

(** ** More properties of runs *)

Definition is_status_effect (e : Effect) : bool :=
  match e with
  | EUnitStatus _ | EAppStatus _ => true
  | _ => false
  end.

(** The same hook context with another answer of pebble to [restart],
    another serflan-node-port. *)
Definition with_restart_failure (f : option exn) (self : HookCtx) : HookCtx :=
  {| config := config self; app_name := app_name self;
     model_name := model_name self; planned_units := planned_units self;
     is_leader := is_leader self; can_connect := can_connect self;
     restart_failure := f; cluster_pods := cluster_pods self;
     set_iteration := set_iteration self;
     set_iteration_perm := set_iteration_perm self |}.

Definition with_node_port (p : Z) (self : HookCtx) : HookCtx :=
  {| config := {| cfg_datacenter := cfg_datacenter (config self);
                  cfg_expose_gossip_and_rpc_ports :=
                    cfg_expose_gossip_and_rpc_ports (config self);
                  cfg_serflan_node_port := p |};
     app_name := app_name self;
     model_name := model_name self; planned_units := planned_units self;
     is_leader := is_leader self; can_connect := can_connect self;
     restart_failure := restart_failure self; cluster_pods := cluster_pods self;
     set_iteration := set_iteration self;
     set_iteration_perm := set_iteration_perm self |}.

(** [_configure] past the reachability test, run by hand: what
    [configure_shape] comes to for a rendered document, the text written
    for it and a publication step that returns. *)
Definition configure_run `{JsonCodec} (self : HookCtx) (rendered : json)
    (text : string) (publish : M unit) (s : State) : Run unit :=
  match read_persisted s with
  | Raises e => {| outcome := Raises e; final := s; effects := [] |}
  | Returns doc =>
      let cc := negb (py_eq doc rendered) in
      let lc := negb (bool_decide (plan_services s = layer_services _pebble_layer)) in
      let s1 := if cc then with_files (<[CONSUL_CONFIG_PATH := text]> (files s)) s
                else s in
      let s2 := if lc then with_plan_services
                             (layer_services _pebble_layer ∪ plan_services s) s1
                else s1 in
      let written := if cc then [EPush CONSUL_CONFIG_PATH text] else [] in
      let applied := if lc then [EAddLayer self_name _pebble_layer] else [] in
      let restarted := if cc || lc then [ERestart self_name] else [] in
      match (if cc || lc then restart_failure self else None) with
      | Some e =>
          if is_ChangeError e then
            let st := BlockedStatus ("Failed to restart Consul: " +:+ exn_str e) in
            {| outcome := Returns tt;
               final := status_state self st s2;
               effects := written ++ applied ++ restarted ++ status_effects self st |}
          else
            {| outcome := Raises e;
               final := s2;
               effects := written ++ applied ++ restarted |}
      | None =>
          {| outcome := Returns tt;
             final := status_state self (ActiveStatus "") (final (publish s2));
             effects := written ++ applied ++ restarted ++ effects (publish s2) ++
                        status_effects self (ActiveStatus "") |}
      end
  end.

(** The inputs of [ConsulConfigBuilder] that reach the document it
    builds: eight of the ports, the datacenter, the number of units, the
    join addresses and the three certificate paths in effect. *)
Definition rendered_inputs (b : ConsulConfigBuilder)
    : (Z * Z * Z * Z * Z * Z * Z * Z) * string * Z * list string *
      (string * string * string) :=
  let p := builder_ports b in
  let tls := builder_tls_certificates b in
  ((dns p, http p, https p, grpc p, grpc_tls p, serf_lan p, serf_wan p, server p),
   builder_datacenter b,
   builder_number_of_units b,
   builder_retry_join b,
   (default "/consul/config/certs/ca.pem" (tls !! "ca_certificate_path"),
    default "/consul/config/certs/server-cert.pem" (tls !! "server_certificate_path"),
    default "/consul/config/certs/server-key.pem" (tls !! "server_key_path"))).

(** A Service object selects a pod: same namespace, and every label of
    the selector on the pod. *)
Definition selects (svc : K8sService) (pod : Pod) : Prop :=
  pod_namespace pod = ks_namespace svc ∧
  ∀ k v, ks_selector svc !! k = Some v → pod_labels pod !! k = Some v.

(** The relation as a requirer sees it when the provider application's
    databag on the relation [rid] is the one of the state [s]. *)
Definition seen_by_requirer (rid : nat) (s : State) : Requirer.Relation :=
  {| Requirer.rel_id := rid;
     Requirer.rel_app_data := default ∅ (databags s !! rid) |}.

(** The databag of a relation after the provider has written the
    cluster configuration to it. *)
Definition config_written_to (datacenter server_addresses : string)
    (databag : gmap string string) : gmap string string :=
  <["server_join_addresses" := server_addresses]> (<["datacenter" := datacenter]> databag).

(** The same hook context with other pods in the cluster. *)
Definition with_cluster_pods (pods : list Pod) (self : HookCtx) : HookCtx :=
  {| config := config self; app_name := app_name self;
     model_name := model_name self; planned_units := planned_units self;
     is_leader := is_leader self; can_connect := can_connect self;
     restart_failure := restart_failure self; cluster_pods := pods;
     set_iteration := set_iteration self;
     set_iteration_perm := set_iteration_perm self |}.

(** A call that changes the workload: a push or a layer. *)
Definition is_change (e : Effect) : bool :=
  match e with
  | EPush _ _ | EAddLayer _ _ => true
  | _ => false
  end.

(** What the publication step of a cycle is allowed to do: it returns,
    it logs publications only, it leaves all but the contents of the
    databags alone, and it adds and drops no relation. *)
Definition publication_step (publish : M unit) : Prop :=
  ∀ s, outcome (publish s) = Returns tt ∧
       Forall (fun e => is_publication e = true) (effects (publish s)) ∧
       same_but_databags s (final (publish s)) ∧
       dom (databags (final (publish s))) = dom (databags s).

(** The order of a cycle [r] run from the state [s]. Its calls come in
    this order: the changes to the workload (file, layer), at most one
    restart of consul, the publications, the status. A cycle that
    returns has set one status [st] as the last thing it did, which is
    the unit's status from then on, and the application's too on the
    leader, whose other units leave the application status alone. A
    cycle that raises has made its calls in that order as far as it
    came, and has set no status: both statuses are as they were. *)
Definition in_cycle_order (self : HookCtx) (s : State) (r : Run unit) : Prop :=
  ∃ changes restarts publications statuses,
    effects r = changes ++ restarts ++ publications ++ statuses ∧
    Forall (fun e => is_change e = true) changes ∧
    (restarts = [] ∨ restarts = [ERestart self_name]) ∧
    Forall (fun e => is_publication e = true) publications ∧
    match outcome r with
    | Returns _ =>
        ∃ st, statuses = status_effects self st ∧
              unit_status (final r) = st ∧
              app_status (final r) = if is_leader self then st else app_status s
    | Raises _ =>
        statuses = [] ∧
        unit_status (final r) = unit_status s ∧
        app_status (final r) = app_status s
    end.

(** What a cycle leaves alone: the opened ports, the Service objects,
    every file but the configuration file, every service of the plan but
    consul's, and the set of relations. *)
Definition cycle_frame (s s' : State) : Prop :=
  opened_ports s' = opened_ports s ∧
  k8s_services s' = k8s_services s ∧
  (∀ path, path ≠ CONSUL_CONFIG_PATH → files s' !! path = files s !! path) ∧
  (∀ name, name ≠ self_name → plan_services s' !! name = plan_services s !! name) ∧
  dom (databags s') = dom (databags s).

(** The workload agrees with what the cycle rendered: the plan holds
    consul's service as the layer declares it, and the configuration
    file holds the text written for the rendered document, or a text
    that reads as a document equal to it. *)
Definition converged `{JsonCodec} (rendered : json) (text : string) (s' : State)
    : Prop :=
  plan_services s' !! self_name = layer_services _pebble_layer !! self_name ∧
  ∃ t, files s' !! CONSUL_CONFIG_PATH = Some t ∧
       (t = text ∨ ∃ doc, json_loads t = Some doc ∧ py_eq doc rendered = true).

(** The configuration file, if there is one, is JSON. *)
Definition config_file_readable `{JsonCodec} (s : State) : Prop :=
  ∀ text, files s !! CONSUL_CONFIG_PATH = Some text → is_Some (json_loads text).

(** A cycle that found nothing to do: no write, no layer, no restart,
    and the unit Active. *)
Definition quiet_cycle (r : Run unit) : Prop :=
  ¬ config_written r ∧ ¬ layer_applied r ∧ ¬ restart_attempted r ∧
  cycle_succeeded r.

(** What the unit's status tells after a cycle [r] run from the state
    [s]: a cycle that raises has left the status alone; after one that
    returns the status is Waiting, and then the workload was out of
    reach and nothing but the status was done; or Blocked, and then a
    restart was attempted and pebble failed it with the error the
    message ends in; or Active, and then any restart attempted went
    through. *)
Definition status_tells (self : HookCtx) (s : State) (r : Run unit) : Prop :=
  match outcome r with
  | Raises _ => unit_status (final r) = unit_status s
  | Returns _ =>
      match unit_status (final r) with
      | WaitingStatus msg =>
          msg = "Waiting for Pebble ready" ∧ can_connect self = false ∧
          Forall (fun e => is_status_effect e = true) (effects r)
      | BlockedStatus msg =>
          can_connect self = true ∧ restart_attempted r ∧
          ∃ m, restart_failure self = Some (ChangeError m) ∧
               msg = "Failed to restart Consul: " +:+ m
      | ActiveStatus msg =>
          msg = "" ∧ can_connect self = true ∧
          (restart_attempted r → restart_failure self = None)
      | _ => False
      end
  end.

(** The ports of the cluster-internal service: serf_lan over tcp and
    udp, and http. *)
Definition cluster_ports (self : HookCtx) : list Port :=
  [ {| port_protocol := "tcp"; port_number := serf_lan (ports self) |};
    {| port_protocol := "udp"; port_number := serf_lan (ports self) |};
    {| port_protocol := "tcp"; port_number := http (ports self) |} ].

(** What a hook [r], run from the state [s], does about ports: with
    exposure off it opens the three cluster ports (8301 twice and 8500)
    and asks for no Service patch; with exposure on it calls
    [set_ports] not at all, so the ports opened before stay as they
    are, and it asks for a NodePort patch named after the application,
    with the configured node port for serf_lan over TCP and over UDP and
    no node port for http over TCP. *)
Definition hook_ports (self : HookCtx) (s : State)
    (r : Run (option KubernetesServicePatch)) : Prop :=
  if truthy (cfg_expose_gossip_and_rpc_ports (config self)) then
    opened_ports (final r) = opened_ports s ∧
    (∀ ps, ESetPorts ps ∉ effects r) ∧
    ∀ answer, outcome r = Returns answer →
      ∃ patch, answer = Some patch ∧
        ksp_service_type patch = "NodePort" ∧
        ksp_service_name patch = app_name self ∧
        sp_nodePort <$> ksp_ports patch =
          [Some (cfg_serflan_node_port (config self));
           Some (cfg_serflan_node_port (config self)); None] ∧
        sp_port <$> ksp_ports patch =
          [cfg_serflan_node_port (config self);
           cfg_serflan_node_port (config self); 8500] ∧
        sp_protocol <$> ksp_ports patch = ["TCP"; "UDP"; "TCP"]
  else
    opened_ports (final r) = cluster_ports self ∧
    port_number <$> cluster_ports self = [8301; 8301; 8500] ∧
    ∀ answer, outcome r = Returns answer → answer = None.

(** Two hooks of one unit between which nothing has changed but the
    process: the second context holds what the first holds, except for
    the order in which it walks a set and for what pebble will answer
    to a restart. *)
Definition next_process (self self' : HookCtx) : Prop :=
  config self' = config self ∧
  app_name self' = app_name self ∧
  model_name self' = model_name self ∧
  planned_units self' = planned_units self ∧
  is_leader self' = is_leader self ∧
  can_connect self' = can_connect self ∧
  cluster_pods self' = cluster_pods self.

(** The same hook context in a process that walks sets the other way
    round. *)
Definition with_reversed_iteration (self : HookCtx) : HookCtx :=
  {| config := config self; app_name := app_name self;
     model_name := model_name self; planned_units := planned_units self;
     is_leader := is_leader self; can_connect := can_connect self;
     restart_failure := restart_failure self; cluster_pods := cluster_pods self;
     set_iteration := fun X => rev (set_iteration self X);
     set_iteration_perm := fun X =>
       Permutation_trans (Permutation_sym (Permutation_rev (set_iteration self X)))
                         (set_iteration_perm self X) |}.

(** ** Running the methods *)

Ltac unfold_hook :=
  repeat (progress (unfold try_except, bind, ret, raise, act, get_state,
    workload_pull, workload_push, workload_get_plan_services, workload_add_layer,
    workload_restart, set_unit_status, set_app_status, unit_set_ports,
    relation_set, klm_reconcile, py_json_loads));
  cbn [app].

(** Membership in an effect log that is known up to the publication and
    status effects. *)
Lemma status_effects_elem (self : HookCtx) (st : Status) (e : Effect) :
  e ∈ status_effects self st → e = EAppStatus st ∨ e = EUnitStatus st.
Proof.
  unfold status_effects. destruct (is_leader self); cbn [app]; intros He.
  - apply elem_of_cons in He as [He|He]; [auto|].
    apply elem_of_cons in He as [He|He]; [auto|].
    apply elem_of_nil in He. destruct He.
  - apply elem_of_cons in He as [He|He]; [auto|].
    apply elem_of_nil in He. destruct He.
Qed.

Ltac elem_destruct :=
  repeat match goal with
  | H : _ ∈ [] |- _ => apply elem_of_nil in H; destruct H
  | H : _ ∈ _ :: _ |- _ => apply elem_of_cons in H; destruct H as [H|H]
  | H : _ ∈ _ ++ _ |- _ => apply elem_of_app in H; destruct H as [H|H]
  | H : _ ∈ status_effects _ _ |- _ =>
      apply status_effects_elem in H; destruct H as [H|H]
  | H : ?x ∈ ?es, Hall : Forall _ ?es |- _ =>
      apply (proj1 (Forall_forall _ _) Hall) in H; cbn in H
  | H : _ = _ |- _ => discriminate H
  | H : ?e = _, Hp : is_publication ?e = true |- _ =>
      rewrite H in Hp; discriminate Hp
  end.

Ltac elem_prove :=
  repeat first [apply list_elem_of_here | apply list_elem_of_further].

Section Runs.
Context `{JsonCodec}.
Variable self : HookCtx.

Lemma update_status_run (st : Status) (s : State) :
  _update_status self st s =
  {| outcome := Returns tt; final := status_state self st s;
     effects := status_effects self st |}.
Proof.
  unfold _update_status, status_state, status_effects.
  destruct (is_leader self); reflexivity.
Qed.

Lemma running_consul_config_run (s : State) :
  can_connect self = true →
  _running_consul_config self s =
  {| outcome := read_persisted s; final := s; effects := [] |}.
Proof.
  intros Hc. unfold _running_consul_config, read_persisted. rewrite Hc.
  cbn [negb]. unfold_hook.
  destruct (files s !! CONSUL_CONFIG_PATH) as [text|]; [|reflexivity].
  destruct (json_loads text); reflexivity.
Qed.

Lemma update_pebble_layer_run (s : State) :
  _update_pebble_layer s =
  if bool_decide (plan_services s = layer_services _pebble_layer)
  then {| outcome := Returns false; final := s; effects := [] |}
  else {| outcome := Returns true;
          final := with_plan_services
                     (layer_services _pebble_layer ∪ plan_services s) s;
          effects := [EAddLayer self_name _pebble_layer] |}.
Proof.
  unfold _update_pebble_layer. unfold_hook.
  case_bool_decide; reflexivity.
Qed.

Lemma charm_update_consul_config_run (s : State) :
  can_connect self = true →
  Charm._update_consul_config self s =
  update_run (Charm.consul_config self)
    (json_dumps (Some 2%nat) (Charm.consul_config self)) s.
Proof.
  intros Hc. unfold Charm._update_consul_config, update_run, bind.
  rewrite (running_consul_config_run s Hc).
  destruct (read_persisted s) as [doc|e]; [|reflexivity].
  destruct (py_eq doc (Charm.consul_config self)); reflexivity.
Qed.

Lemma legacy_update_consul_config_run (s : State) :
  can_connect self = true →
  Legacy._update_consul_config self s =
  update_run (Legacy.consul_config self)
    (json_dumps None (Legacy.consul_config self)) s.
Proof.
  intros Hc. unfold Legacy._update_consul_config, update_run, bind.
  rewrite (running_consul_config_run s Hc).
  destruct (read_persisted s) as [doc|e]; [|reflexivity].
  destruct (py_eq doc (Legacy.consul_config self)); reflexivity.
Qed.

Lemma restart_step_run (restart : bool) (s : State) :
  restart_step self restart s =
  if restart then
    match restart_failure self with
    | None =>
        {| outcome := Returns true; final := s; effects := [ERestart self_name] |}
    | Some e =>
        if is_ChangeError e then
          let st := BlockedStatus ("Failed to restart Consul: " +:+ exn_str e) in
          {| outcome := Returns false; final := status_state self st s;
             effects := ERestart self_name :: status_effects self st |}
        else
          {| outcome := Raises e; final := s; effects := [ERestart self_name] |}
    end
  else {| outcome := Returns true; final := s; effects := [] |}.
Proof.
  unfold restart_step. destruct restart; [|reflexivity].
  unfold try_except, bind, workload_restart.
  destruct (restart_failure self) as [e|]; [|reflexivity].
  destruct (is_ChangeError e); [|reflexivity].
  rewrite update_status_run. unfold ret.
  cbn [app]. rewrite app_nil_r. reflexivity.
Qed.

Lemma charm_configure_shape (s : State) :
  can_connect self = true →
  Charm._configure self s =
  configure_shape self (Charm._update_consul_config self)
    (Charm._set_endpoints_on_related_apps self None) s.
Proof. intros Hc. unfold Charm._configure. rewrite Hc. reflexivity. Qed.

Lemma legacy_configure_shape (s : State) :
  can_connect self = true →
  Legacy._configure self s =
  configure_shape self (Legacy._update_consul_config self)
    (Legacy._set_config_on_related_apps self None) s.
Proof. intros Hc. unfold Legacy._configure. rewrite Hc. reflexivity. Qed.

Lemma charm_publish_run (s : State) :
  Charm._set_endpoints_on_related_apps self None s =
  {| outcome := Returns tt; final := s; effects := charm_publish_effects self |}.
Proof.
  unfold Charm._set_endpoints_on_related_apps, Charm.set_cluster_endpoints,
    charm_publish_effects.
  destruct (is_leader self); reflexivity.
Qed.

Lemma charm_publish_effects_are_publications :
  Forall (fun e => is_publication e = true) (charm_publish_effects self).
Proof.
  unfold charm_publish_effects. destruct (is_leader self); repeat constructor.
Qed.

Lemma write_config_run (rid : nat) (dc addrs : string) (s : State) :
  ∃ s' es,
    Provider.write_config rid dc addrs s =
      {| outcome := Returns tt; final := s'; effects := es |} ∧
    Forall (fun e => is_publication e = true) es ∧
    same_but_databags s s'.
Proof.
  unfold Provider.write_config. unfold_hook.
  eexists _, _. split; [reflexivity|].
  split; [repeat constructor|]. repeat split.
Qed.

Lemma write_config_all_run (rids : list nat) (dc addrs : string) (s : State) :
  ∃ s' es,
    Provider.write_config_all rids dc addrs s =
      {| outcome := Returns tt; final := s'; effects := es |} ∧
    Forall (fun e => is_publication e = true) es ∧
    same_but_databags s s'.
Proof.
  revert s. induction rids as [|rid rids IH]; intros s.
  - exists s, []. split; [reflexivity|]. split; [constructor|]. repeat split.
  - cbn [Provider.write_config_all]. unfold bind.
    destruct (write_config_run rid dc addrs s) as (s1 & e1 & -> & Hall1 & Hs1).
    destruct (IH s1) as (s2 & e2 & -> & Hall2 & Hs2).
    exists s2, (e1 ++ e2). split; [reflexivity|].
    split; [apply Forall_app; auto|].
    unfold same_but_databags in *. intuition congruence.
Qed.

Lemma set_cluster_config_run (relation : option nat) (dc : string)
    (addrs : list string) (s : State) :
  ∃ s' es,
    Provider.set_cluster_config self relation dc addrs s =
      {| outcome := Returns tt; final := s'; effects := es |} ∧
    Forall (fun e => is_publication e = true) es ∧
    same_but_databags s s'.
Proof.
  unfold Provider.set_cluster_config.
  destruct (is_leader self); cbn [negb].
  - destruct relation as [rid|].
    + apply write_config_run.
    + unfold bind, get_state.
      destruct (write_config_all_run (elements (dom (databags s))) dc
                  (json_dumps None (JList (JStr <$> addrs))) s)
        as (s' & es & -> & Hall & Hs).
      exists s', es. split; [reflexivity|]. split; assumption.
  - exists s, []. split; [reflexivity|]. split; [constructor|]. repeat split.
Qed.

Lemma legacy_publish_run (event : option nat) (s : State) :
  ∃ s' es,
    Legacy._set_config_on_related_apps self event s =
      {| outcome := Returns tt; final := s'; effects := es |} ∧
    Forall (fun e => is_publication e = true) es.
Proof.
  unfold Legacy._set_config_on_related_apps.
  destruct event as [rid|];
    match goal with
    | |- context [Provider.set_cluster_config self ?r ?dc ?a s] =>
        destruct (set_cluster_config_run r dc a s) as (s' & es & Hr & Hall & _)
    end; eauto.
Qed.

End Runs.


(** ** Documents, statuses and the plan *)

Lemma py_eq_str_list_refl (l : list string) :
  py_eq (JList (JStr <$> l)) (JList (JStr <$> l)) = true.
Proof.
  induction l as [|a l IH]; [reflexivity|].
  change (py_eq (JStr a) (JStr a) &&
          py_eq (JList (JStr <$> l)) (JList (JStr <$> l)) = true).
  rewrite IH. cbn [py_eq]. rewrite String.eqb_refl. reflexivity.
Qed.

(** A built document is equal to itself under Python's [==]. *)
Lemma py_eq_build_refl (b : ConsulConfigBuilder) : py_eq (build b) (build b) = true.
Proof.
  destruct b as [p dc n l tls]. unfold build.
  cbn [builder_ports builder_datacenter builder_number_of_units builder_retry_join
       builder_tls_certificates].
  generalize (default "/consul/config/certs/ca.pem" (tls !! "ca_certificate_path")).
  generalize (default "/consul/config/certs/server-cert.pem"
                (tls !! "server_certificate_path")).
  generalize (default "/consul/config/certs/server-key.pem" (tls !! "server_key_path")).
  intros k c a. pose proof (py_eq_str_list_refl l) as Hl.
  generalize dependent (JStr <$> l). intros jl Hl.
  simpl. simpl in Hl. rewrite Hl.
  rewrite !Z.eqb_refl, !String.eqb_refl. reflexivity.
Qed.

(** The empty document differs from every built one. *)
Lemma py_eq_empty_build (b : ConsulConfigBuilder) : py_eq (JDict []) (build b) = false.
Proof. reflexivity. Qed.

Lemma status_state_idem (self : HookCtx) (st : Status) (s : State) :
  status_state self st (status_state self st s) = status_state self st s.
Proof. unfold status_state. destruct (is_leader self); reflexivity. Qed.

Lemma status_state_fields (self : HookCtx) (st : Status) (s : State) :
  files (status_state self st s) = files s ∧
  plan_services (status_state self st s) = plan_services s ∧
  databags (status_state self st s) = databags s ∧
  unit_status (status_state self st s) = st.
Proof. unfold status_state. destruct (is_leader self); repeat split. Qed.

(** With no service but consul's in the plan, applying the layer makes
    the plan's services the layer's. *)
Lemma layer_over_own_plan (s : State) :
  only_consul_service s →
  layer_services _pebble_layer ∪ plan_services s = layer_services _pebble_layer.
Proof.
  intros Hplan. apply map_eq. intros name.
  destruct (decide (name = self_name)) as [->|Hne].
  - apply lookup_union_Some_l. apply lookup_singleton_eq.
  - rewrite lookup_union_r; [rewrite (Hplan name Hne)|];
      cbn [_pebble_layer layer_services]; by rewrite lookup_singleton_ne.
Qed.

Lemma read_persisted_ext `{JsonCodec} (s s' : State) :
  files s' = files s → read_persisted s' = read_persisted s.
Proof. intros Hf. unfold read_persisted. by rewrite Hf. Qed.

(** ** The provider side of the consul-cluster relation *)

(** Two states with the same fields are the same state. *)
Lemma with_databags_twice (d d' : gmap nat (gmap string string)) (s : State) :
  with_databags d' (with_databags d s) = with_databags d' s.
Proof. reflexivity. Qed.

Lemma with_databags_same (s : State) : with_databags (databags s) s = s.
Proof. by destruct s. Qed.

Lemma same_but_databags_eq (s s' : State) :
  same_but_databags s s' → s' = with_databags (databags s') s.
Proof.
  destruct s, s'. unfold same_but_databags, with_databags. cbn.
  intros (-> & -> & -> & -> & -> & ->). reflexivity.
Qed.

Lemma config_written_to_idem (dc a : string) (bag : gmap string string) :
  config_written_to dc a (config_written_to dc a bag) = config_written_to dc a bag.
Proof.
  unfold config_written_to. apply map_eq. intros k.
  destruct (decide (k = "server_join_addresses")) as [->|Ha];
    [by rewrite !lookup_insert_eq|].
  rewrite !(lookup_insert_ne _ "server_join_addresses") by done.
  destruct (decide (k = "datacenter")) as [->|Hd];
    [by rewrite !lookup_insert_eq|].
  rewrite !(lookup_insert_ne _ "datacenter") by done.
  by repeat (rewrite lookup_insert_ne by done).
Qed.

Lemma write_config_closed (rid : nat) (dc a : string) (s : State) :
  Provider.write_config rid dc a s =
  {| outcome := Returns tt;
     final := with_databags
                (<[rid := config_written_to dc a (default ∅ (databags s !! rid))]>
                   (databags s)) s;
     effects := [ERelationSet rid "datacenter" dc;
                 ERelationSet rid "server_join_addresses" a] |}.
Proof.
  unfold Provider.write_config. unfold_hook. f_equal.
  unfold with_databags, config_written_to. cbn [databags files plan_services
    unit_status app_status opened_ports k8s_services].
  rewrite lookup_insert_eq. cbn [default]. by rewrite insert_insert_eq.
Qed.

Lemma write_config_all_frame (rids : list nat) (dc a : string) (s : State) :
  let r := Provider.write_config_all rids dc a s in
  outcome r = Returns tt ∧ final r = with_databags (databags (final r)) s.
Proof.
  revert s. induction rids as [|rid rids IH]; intros s; cbn zeta.
  - cbn [Provider.write_config_all]. unfold ret. cbn [outcome final].
    split; [reflexivity|]. symmetry. apply with_databags_same.
  - cbn [Provider.write_config_all]. unfold bind. rewrite write_config_closed.
    destruct (IH (with_databags
                    (<[rid := config_written_to dc a (default ∅ (databags s !! rid))]>
                       (databags s)) s)) as [Ho Hf].
    cbn zeta in Ho, Hf.
    destruct (Provider.write_config_all rids dc a _) as [o sf es].
    cbn [outcome final] in *. split; [exact Ho|].
    rewrite Hf at 1. reflexivity.
Qed.

Lemma write_config_all_databags (rids : list nat) (dc a : string) (s : State)
    (rid : nat) :
  databags (final (Provider.write_config_all rids dc a s)) !! rid =
  if decide (rid ∈ rids)
  then Some (config_written_to dc a (default ∅ (databags s !! rid)))
  else databags s !! rid.
Proof.
  revert s. induction rids as [|r0 rids IH]; intros s.
  - cbn [Provider.write_config_all]. unfold ret. cbn [final].
    destruct (decide (rid ∈ [])) as [Hin|_]; [|reflexivity].
    apply elem_of_nil in Hin. destruct Hin.
  - cbn [Provider.write_config_all]. unfold bind. rewrite write_config_closed.
    specialize (IH (with_databags
                      (<[r0 := config_written_to dc a (default ∅ (databags s !! r0))]>
                         (databags s)) s)).
    destruct (Provider.write_config_all rids dc a _) as [o sf es].
    cbn [final with_databags databags] in *. rewrite IH. clear IH.
    destruct (decide (rid ∈ rids)) as [Hin|Hnin].
    + rewrite decide_True by (by apply list_elem_of_further).
      destruct (decide (rid = r0)) as [->|Hne].
      * rewrite lookup_insert_eq. cbn [default id]. by rewrite config_written_to_idem.
      * by rewrite lookup_insert_ne by done.
    + destruct (decide (rid = r0)) as [->|Hne].
      * rewrite lookup_insert_eq. by rewrite decide_True by apply list_elem_of_here.
      * rewrite lookup_insert_ne by done.
        rewrite decide_False; [reflexivity|].
        intros Hin. apply elem_of_cons in Hin as [?|?]; contradiction.
Qed.

Section ProviderSide.
Context `{JsonCodec}.
Variable self : HookCtx.

(** What [set_cluster_config] leaves in the databags, for the leader. *)
Lemma set_cluster_config_databags (relation : option nat) (dc : string)
    (addrs : list string) (s : State) (rid : nat) :
  is_leader self = true →
  let text := json_dumps None (JList (JStr <$> addrs)) in
  databags (final (Provider.set_cluster_config self relation dc addrs s)) !! rid =
  match relation with
  | Some rid' =>
      if decide (rid = rid')
      then Some (config_written_to dc text (default ∅ (databags s !! rid)))
      else databags s !! rid
  | None => config_written_to dc text <$> databags s !! rid
  end.
Proof.
  intros Hl. cbn zeta. unfold Provider.set_cluster_config. rewrite Hl. cbn [negb].
  destruct relation as [rid'|].
  - rewrite write_config_closed. cbn [final with_databags databags].
    destruct (decide (rid = rid')) as [->|Hne].
    + by rewrite lookup_insert_eq.
    + by rewrite lookup_insert_ne by done.
  - unfold bind, get_state.
    pose proof (write_config_all_databags (elements (dom (databags s))) dc
                  (json_dumps None (JList (JStr <$> addrs))) s rid) as Hd.
    revert Hd. destruct (Provider.write_config_all _ _ _ _) as [o sf es].
    cbn [final]. intros ->.
    destruct (decide (rid ∈ elements (dom (databags s)))) as [Hin|Hnin].
    + apply elem_of_elements, elem_of_dom in Hin as [bag Hbag].
      by rewrite Hbag.
    + destruct (databags s !! rid) as [bag|] eqn:Hbag; [|reflexivity].
      destruct Hnin. apply elem_of_elements, elem_of_dom. by exists bag.
Qed.

Lemma set_cluster_config_frame (relation : option nat) (dc : string)
    (addrs : list string) (s : State) :
  let r := Provider.set_cluster_config self relation dc addrs s in
  outcome r = Returns tt ∧ final r = with_databags (databags (final r)) s.
Proof.
  cbn zeta.
  destruct (set_cluster_config_run self relation dc addrs s)
    as (s' & es & -> & _ & Hs).
  cbn [outcome final]. split; [reflexivity|]. by apply same_but_databags_eq.
Qed.

(** Asked for every relation, [set_cluster_config] adds and drops none. *)
Lemma set_cluster_config_dom (dc : string) (addrs : list string) (s : State) :
  dom (databags (final (Provider.set_cluster_config self None dc addrs s))) =
  dom (databags s).
Proof.
  destruct (is_leader self) eqn:Hl.
  - apply set_eq. intros rid.
    rewrite !elem_of_dom, (set_cluster_config_databags None dc addrs s rid Hl).
    apply fmap_is_Some.
  - unfold Provider.set_cluster_config. rewrite Hl. reflexivity.
Qed.

End ProviderSide.

(** ** The reconcile cycle, run by hand *)

Lemma status_state_frame (self : HookCtx) (st : Status) (s : State) :
  files (status_state self st s) = files s ∧
  plan_services (status_state self st s) = plan_services s ∧
  databags (status_state self st s) = databags s ∧
  opened_ports (status_state self st s) = opened_ports s ∧
  k8s_services (status_state self st s) = k8s_services s ∧
  unit_status (status_state self st s) = st ∧
  app_status (status_state self st s) = if is_leader self then st else app_status s.
Proof. unfold status_state. destruct (is_leader self); repeat split. Qed.

Lemma bind_returns {A B} (m : M A) (f : A → M B) (s : State) (a : A) :
  outcome (m s) = Returns a →
  bind m f s =
  {| outcome := outcome (f a (final (m s)));
     final := final (f a (final (m s)));
     effects := effects (m s) ++ effects (f a (final (m s))) |}.
Proof.
  unfold bind. destruct (m s) as [o s1 e1]. cbn [outcome final effects].
  intros ->. by destruct (f a s1).
Qed.

(** The three answers of pebble to a restart: success, the
    [ChangeError] the cycle catches, another error. *)
Ltac restart_cases self :=
  destruct (restart_failure self) as [?e|] eqn:?Hrf;
    [destruct (is_ChangeError e) eqn:?Hce|].

Section Cycle.
Context `{JsonCodec}.
Variable self : HookCtx.

Lemma charm_publication_step :
  publication_step (Charm._set_endpoints_on_related_apps self None).
Proof.
  intros s. rewrite charm_publish_run. cbn [outcome final effects].
  split; [reflexivity|].
  split; [apply charm_publish_effects_are_publications|].
  split; [repeat split | reflexivity].
Qed.

Lemma legacy_publication_step :
  publication_step (Legacy._set_config_on_related_apps self None).
Proof.
  intros s. unfold Legacy._set_config_on_related_apps.
  set (dc := cfg_datacenter (config self)).
  set (addrs := Legacy._get_join_addesses self false).
  destruct (set_cluster_config_run self None dc addrs s)
    as (s' & es & Hr & Hall & Hs).
  split; [by rewrite Hr|]. split; [by rewrite Hr|]. split; [by rewrite Hr|].
  apply set_cluster_config_dom.
Qed.

(** [configure_shape] comes to [configure_run]. *)
Lemma configure_shape_run (update : M bool) (publish : M unit)
    (rendered : json) (text : string) (s : State) :
  update s = update_run rendered text s →
  publication_step publish →
  configure_shape self update publish s =
  configure_run self rendered text publish s.
Proof.
  intros Hupd Hpub. unfold configure_shape, configure_run.
  unfold bind at 1. rewrite Hupd. unfold update_run.
  destruct (read_persisted s) as [doc|e]; [|reflexivity].
  destruct (py_eq doc rendered); cbn [negb].
  all: unfold bind at 1; rewrite update_pebble_layer_run;
    cbn [plan_services with_files].
  all: destruct (bool_decide (plan_services s = layer_services _pebble_layer));
    cbn [negb orb].
  all: unfold bind at 1; rewrite restart_step_run.
  all: restart_cases self; cbn [app].
  all: try reflexivity.
  all: try (rewrite (bind_returns publish _ _ tt) by apply Hpub;
            rewrite update_status_run; cbn [outcome final effects app];
            rewrite ?app_nil_r; reflexivity).
  all: unfold bind, ret; rewrite ?app_nil_r; reflexivity.
Qed.

Lemma charm_configure_run (s : State) :
  can_connect self = true →
  Charm._configure self s =
  configure_run self (Charm.consul_config self)
    (json_dumps (Some 2%nat) (Charm.consul_config self))
    (Charm._set_endpoints_on_related_apps self None) s.
Proof.
  intros Hc. rewrite (charm_configure_shape self s Hc).
  apply configure_shape_run.
  - apply charm_update_consul_config_run, Hc.
  - apply charm_publication_step.
Qed.

Lemma legacy_configure_run (s : State) :
  can_connect self = true →
  Legacy._configure self s =
  configure_run self (Legacy.consul_config self)
    (json_dumps None (Legacy.consul_config self))
    (Legacy._set_config_on_related_apps self None) s.
Proof.
  intros Hc. rewrite (legacy_configure_shape self s Hc).
  apply configure_shape_run.
  - apply legacy_update_consul_config_run, Hc.
  - apply legacy_publication_step.
Qed.

(** With the workload out of reach, the cycle of either charm only sets
    the status. *)
Lemma configure_unreachable (s : State) :
  can_connect self = false →
  let waiting :=
    {| outcome := Returns tt;
       final := status_state self (WaitingStatus "Waiting for Pebble ready") s;
       effects := status_effects self (WaitingStatus "Waiting for Pebble ready") |} in
  Charm._configure self s = waiting ∧ Legacy._configure self s = waiting.
Proof.
  intros Hc. cbn zeta. unfold Charm._configure, Legacy._configure. rewrite Hc.
  cbn [negb]. by rewrite update_status_run.
Qed.

(** The state a cycle that reads its configuration file leaves behind,
    however it ends. *)
Lemma configure_run_fields (publish : M unit) (rendered : json) (text : string)
    (s : State) (doc : json) :
  publication_step publish →
  read_persisted s = Returns doc →
  let r := configure_run self rendered text publish s in
  files (final r) =
    (if py_eq doc rendered then files s
     else <[CONSUL_CONFIG_PATH := text]> (files s)) ∧
  plan_services (final r) =
    (if bool_decide (plan_services s = layer_services _pebble_layer)
     then plan_services s
     else layer_services _pebble_layer ∪ plan_services s) ∧
  opened_ports (final r) = opened_ports s ∧
  k8s_services (final r) = k8s_services s ∧
  dom (databags (final r)) = dom (databags s).
Proof.
  intros Hpub Hrd. cbn zeta. unfold configure_run. rewrite Hrd.
  destruct (py_eq doc rendered);
    destruct (bool_decide (plan_services s = layer_services _pebble_layer));
    cbn [negb orb outcome final].
  all: restart_cases self; cbn [outcome final].
  all: try match goal with
       | |- context [status_state self ?st ?s0] =>
           destruct (status_state_frame self st s0)
             as (Hf & Hp & Hd & Ho & Hk & _ & _)
       end.
  all: try match goal with
       | |- context [final (?p ?s0)] =>
           destruct (Hpub s0) as (_ & _ & (Hf' & Hp' & _ & _ & Ho' & Hk') & Hd')
       end.
  all: cbn [files plan_services databags opened_ports k8s_services
            with_files with_plan_services] in *.
  all: repeat split; congruence.
Qed.

(** A cycle returns on a readable file unless the restart raises an
    error it does not catch. *)
Lemma configure_run_outcome (publish : M unit) (rendered : json) (text : string)
    (s : State) (doc : json) :
  read_persisted s = Returns doc →
  let r := configure_run self rendered text publish s in
  outcome r = Returns tt ∨
  ∃ e, restart_failure self = Some e ∧ is_ChangeError e = false ∧
       outcome r = Raises e ∧ restart_attempted r.
Proof.
  intros Hrd. cbn zeta. unfold configure_run, restart_attempted. rewrite Hrd.
  destruct (py_eq doc rendered);
    destruct (bool_decide (plan_services s = layer_services _pebble_layer));
    cbn [negb orb outcome final].
  all: restart_cases self; cbn [outcome final effects app].
  all: first [by left | right; eexists; repeat split; by elem_prove].
Qed.

End Cycle.

Section CycleLemmas.
Context `{JsonCodec}.
Variable self : HookCtx.

Lemma configure_run_in_order (publish : M unit) (rendered : json) (text : string)
    (s : State) :
  publication_step publish →
  in_cycle_order self s (configure_run self rendered text publish s).
Proof.
  intros Hpub. unfold in_cycle_order, configure_run.
  destruct (read_persisted s) as [doc|e];
    [|exists [], [], [], []; cbn [outcome final effects];
      repeat split; by constructor].
  destruct (py_eq doc rendered);
    destruct (bool_decide (plan_services s = layer_services _pebble_layer));
    cbn [negb orb].
  all: restart_cases self; cbn [outcome final effects].
  all: try match goal with
       | |- context [status_state self ?st ?s0] =>
           destruct (status_state_frame self st s0)
             as (_ & _ & _ & _ & _ & Hu & Ha)
       end.
  all: try match goal with
       | |- context [final (?p ?s0)] =>
           destruct (Hpub s0) as (_ & Hall & (_ & _ & _ & Ha' & _ & _) & _)
       end.
  all: lazymatch goal with
       | |- ∃ _ _ _ _, ?w ++ ?a ++ ?r ++ status_effects self ?st = _ ∧ _ =>
           exists (w ++ a), r, [], (status_effects self st)
       | |- ∃ _ _ _ _, ?w ++ ?a ++ ?r ++ ?p ++ status_effects self ?st = _ ∧ _ =>
           exists (w ++ a), r, p, (status_effects self st)
       | |- ∃ _ _ _ _, ?w ++ ?a ++ ?r = _ ∧ _ =>
           exists (w ++ a), r, [], []
       end.
  all: split; [reflexivity|].
  all: split; [cbn [app]; repeat constructor|].
  all: split; [first [by left | by right]|].
  all: split; [first [exact Hall | constructor]|].
  all: first
    [ (* the cycle raised at the restart *)
      by repeat split
    | (* the cycle returned *)
      eexists; split; [reflexivity|]; split; [exact Hu|];
      rewrite Ha; destruct (is_leader self); [reflexivity|];
      first [exact Ha' | reflexivity] ].
Qed.

Lemma configure_run_frame (publish : M unit) (rendered : json) (text : string)
    (s : State) :
  publication_step publish →
  cycle_frame s (final (configure_run self rendered text publish s)).
Proof.
  intros Hpub. unfold cycle_frame.
  destruct (read_persisted s) as [doc|e] eqn:Hrd.
  - destruct (configure_run_fields self publish rendered text s doc Hpub Hrd)
      as (Hf & Hp & Ho & Hk & Hd). cbn zeta in *.
    split; [exact Ho|]. split; [exact Hk|]. split; [|split; [|exact Hd]].
    + intros path Hne. rewrite Hf. destruct (py_eq doc rendered); [reflexivity|].
      by rewrite lookup_insert_ne.
    + intros name Hne. rewrite Hp.
      destruct (bool_decide (plan_services s = layer_services _pebble_layer));
        [reflexivity|].
      apply lookup_union_r. cbn [_pebble_layer layer_services].
      by rewrite lookup_singleton_ne.
  - unfold configure_run. rewrite Hrd. cbn [final]. repeat split.
Qed.

Lemma readable_read_persisted (s : State) :
  config_file_readable s →
  ∃ doc, read_persisted s = Returns doc ∧
         match files s !! CONSUL_CONFIG_PATH with
         | Some t => json_loads t = Some doc
         | None => doc = JDict []
         end.
Proof.
  intros Hread. unfold read_persisted.
  destruct (files s !! CONSUL_CONFIG_PATH) as [t|] eqn:Hf.
  - destruct (Hread t Hf) as [doc Hdoc]. exists doc. by rewrite Hdoc.
  - by exists (JDict []).
Qed.

(** A configuration file that is not JSON stops the cycle at once. *)
Lemma corrupt_file_stops_cycle (s : State) (t : string) :
  can_connect self = true →
  files s !! CONSUL_CONFIG_PATH = Some t →
  json_loads t = None →
  Charm._configure self s =
    {| outcome := Raises JSONDecodeError; final := s; effects := [] |} ∧
  Legacy._configure self s =
    {| outcome := Raises JSONDecodeError; final := s; effects := [] |}.
Proof.
  intros Hc Hf Hl.
  assert (Hrd : read_persisted s = Raises JSONDecodeError).
  { unfold read_persisted. by rewrite Hf, Hl. }
  rewrite (charm_configure_run self s Hc), (legacy_configure_run self s Hc).
  unfold configure_run. by rewrite Hrd.
Qed.

(** A run that returned, or came as far as the restart, has read its
    configuration file. *)
Lemma configure_run_readable (publish : M unit) (rendered : json) (text : string)
    (s : State) :
  let r := configure_run self rendered text publish s in
  outcome r = Returns tt ∨ restart_attempted r →
  config_file_readable s.
Proof.
  cbn zeta. intros Hr t Ht. destruct (json_loads t) as [d|] eqn:Hd; [by eexists|].
  exfalso. unfold configure_run, read_persisted in Hr. rewrite Ht, Hd in Hr.
  unfold restart_attempted in Hr. cbn [outcome effects] in Hr.
  destruct Hr as [Hr|Hr]; [discriminate Hr | elem_destruct].
Qed.

Lemma configure_run_converges (publish : M unit) (rendered : json) (text : string)
    (s : State) :
  publication_step publish →
  py_eq (JDict []) rendered = false →
  config_file_readable s →
  converged rendered text (final (configure_run self rendered text publish s)).
Proof.
  intros Hpub Hempty Hread.
  destruct (readable_read_persisted s Hread) as (doc & Hrd & Hdoc).
  destruct (configure_run_fields self publish rendered text s doc Hpub Hrd)
    as (Hf & Hp & _). cbn zeta in *.
  split.
  - rewrite Hp. case_bool_decide as Hpl; [by rewrite Hpl|].
    apply lookup_union_Some_l. apply lookup_singleton_eq.
  - rewrite Hf. destruct (py_eq doc rendered) eqn:He.
    + destruct (files s !! CONSUL_CONFIG_PATH) as [t|] eqn:Hft.
      * exists t. split; [reflexivity|]. right. by exists doc.
      * subst doc. congruence.
    + exists text. split; [apply lookup_insert_eq | by left].
Qed.

(** Once a cycle has come to its end, with a text that reads back as the
    rendered document and no foreign service in the plan, the next
    cycle finds the file and the plan as it wants them. *)
Lemma configure_run_settles (publish : M unit) (rendered : json) (text : string)
    (s : State) :
  publication_step publish →
  py_eq (JDict []) rendered = false →
  config_file_readable s →
  only_consul_service s →
  (∃ d, json_loads text = Some d ∧ py_eq d rendered = true) →
  let s' := final (configure_run self rendered text publish s) in
  (∃ doc, read_persisted s' = Returns doc ∧ py_eq doc rendered = true) ∧
  plan_services s' = layer_services _pebble_layer.
Proof.
  intros Hpub Hempty Hread Hplan (d & Hd & Hde). cbn zeta.
  destruct (configure_run_converges publish rendered text s Hpub Hempty Hread)
    as (_ & t & Ht & Hcase).
  split.
  - unfold read_persisted. rewrite Ht.
    destruct Hcase as [->|(doc & Hdoc & Hdoce)].
    + exists d. by rewrite Hd.
    + exists doc. by rewrite Hdoc.
  - destruct (readable_read_persisted s Hread) as (doc & Hrd & _).
    destruct (configure_run_fields self publish rendered text s doc Hpub Hrd)
      as (_ & Hp & _). cbn zeta in Hp. rewrite Hp.
    case_bool_decide as Hpl; [exact Hpl|]. by apply layer_over_own_plan.
Qed.

Lemma configure_run_quiet_form (publish : M unit) (rendered : json)
    (text : string) (s : State) (doc : json) :
  read_persisted s = Returns doc →
  py_eq doc rendered = true →
  plan_services s = layer_services _pebble_layer →
  configure_run self rendered text publish s =
  {| outcome := Returns tt;
     final := status_state self (ActiveStatus "") (final (publish s));
     effects := effects (publish s) ++ status_effects self (ActiveStatus "") |}.
Proof.
  intros Hrd He Hpl. unfold configure_run.
  by rewrite Hrd, He, (bool_decide_eq_true_2 _ Hpl).
Qed.

Lemma configure_run_quiet (publish : M unit) (rendered : json) (text : string)
    (s : State) (doc : json) :
  publication_step publish →
  read_persisted s = Returns doc →
  py_eq doc rendered = true →
  plan_services s = layer_services _pebble_layer →
  quiet_cycle (configure_run self rendered text publish s).
Proof.
  intros Hpub Hrd He Hpl.
  rewrite (configure_run_quiet_form publish rendered text s doc Hrd He Hpl).
  destruct (Hpub s) as (_ & Hall & _).
  unfold quiet_cycle, config_written, layer_applied, restart_attempted,
    cycle_succeeded. cbn [outcome final effects].
  split; [intros [t Hin]; elem_destruct|].
  split; [intros [l Hin]; elem_destruct|].
  split; [intros Hin; elem_destruct|].
  split; [reflexivity|].
  by destruct (status_state_frame self (ActiveStatus "") (final (publish s)))
    as (_ & _ & _ & _ & _ & Hu & _).
Qed.

Lemma configure_run_succeeded_form (publish : M unit) (rendered : json)
    (text : string) (s : State) :
  cycle_succeeded (configure_run self rendered text publish s) →
  ∃ s2, final (configure_run self rendered text publish s) =
        status_state self (ActiveStatus "") (final (publish s2)).
Proof.
  unfold cycle_succeeded, configure_run.
  destruct (read_persisted s) as [doc|e]; [|intros [Ho _]; discriminate Ho].
  destruct (py_eq doc rendered);
    destruct (bool_decide (plan_services s = layer_services _pebble_layer));
    cbn [negb orb].
  all: restart_cases self; cbn [outcome final]; intros [Ho Hst];
    try discriminate Ho.
  all: match type of Hst with
       | unit_status (status_state self ?st ?s0) = _ =>
           destruct (status_state_frame self st s0)
             as (_ & _ & _ & _ & _ & Hu & _);
           rewrite Hu in Hst; try discriminate Hst
       end.
  all: eexists; reflexivity.
Qed.

Lemma configure_frame (s : State) :
  cycle_frame s (final (Charm._configure self s)) ∧
  cycle_frame s (final (Legacy._configure self s)).
Proof.
  destruct (can_connect self) eqn:Hc.
  - rewrite (charm_configure_run self s Hc), (legacy_configure_run self s Hc).
    split; apply configure_run_frame;
      [apply charm_publication_step | apply legacy_publication_step].
  - destruct (configure_unreachable self s Hc) as [-> ->]. cbn zeta.
    cbn [final]. unfold cycle_frame.
    destruct (status_state_frame self (WaitingStatus "Waiting for Pebble ready") s)
      as (Hf & Hp & Hd & Ho & Hk & _ & _).
    rewrite Hf, Hp, Hd, Ho, Hk. repeat split.
Qed.

End CycleLemmas.

(** ** The restart discipline *)

Section Discipline.
Context `{JsonCodec}.
Variable self : HookCtx.

Lemma configure_run_discipline (publish : M unit) (rendered : json)
    (text : string) (s : State) :
  publication_step publish →
  py_eq (JDict []) rendered = false →
  restart_discipline is_ChangeError self s rendered
    (configure_run self rendered text publish s).
Proof.
  intros Hpub Hempty. unfold restart_discipline, configure_run, read_persisted.
  destruct (files s !! CONSUL_CONFIG_PATH) as [t|];
    [destruct (json_loads t) as [doc|];
       [destruct (py_eq doc rendered) eqn:He|]
    |rewrite Hempty].
  all: cbn [negb orb].
  all: try destruct (bool_decide (plan_services s = layer_services _pebble_layer))
         eqn:Hl; cbn [negb orb].
  all: restart_cases self.
  all: unfold restart_attempted, config_written, layer_applied, published;
    cbn [outcome final effects app].
  all: try match goal with
       | |- context [status_state self ?st ?s0] =>
           destruct (status_state_frame self st s0)
             as (_ & _ & Hd & _ & _ & Hu & Ha)
       end.
  all: try match goal with
       | |- context [effects (?p ?s0)] =>
           destruct (Hpub s0) as (_ & Hall & _)
       end.
  all: try first [apply bool_decide_eq_true in Hl | apply bool_decide_eq_false in Hl].
  all: split; [|split].
  (* the restart is attempted exactly when something was changed *)
  all: try (split; [intros Hre | intros [[t0 Hre]|[l0 Hre]]];
            first [ by (exfalso; elem_destruct)
                  | left; eexists; by elem_prove
                  | right; eexists; by elem_prove
                  | by elem_prove ]).
  (* what is changed *)
  all: try by (intros doc0 Hd0; discriminate Hd0).
  all: try (try (intros doc0 Hd0; injection Hd0 as <-);
            split; [try split|split];
            first [ intros [t0 Hre]; first [assumption | by (exfalso; elem_destruct)]
                  | intros Hne; first [congruence | eexists; by elem_prove]
                  | eexists; by elem_prove ]).
  (* an attempted restart that raises *)
  all: intros e0 He0 Hre; first [discriminate He0 | injection He0 as <-].
  all: try by (exfalso; elem_destruct).
  all: rewrite ?Hce.
  all: split; [intros (e0 & Hin & Hp); elem_destruct|].
  all: split; [first [exact Hd | reflexivity]|].
  all: first
    [ (* Blocked *)
      split; [reflexivity|]; split; [exact Hu|];
      split; [intros Hlead; rewrite Ha, Hlead; reflexivity|];
      first [by exists [] | by eexists [_] | by eexists [_; _]]
    | (* raised *)
      split; [reflexivity|]; split; [reflexivity|]; split; [reflexivity|];
      first [by exists [] | by eexists [_] | by eexists [_; _]] ].
Qed.

Lemma charm_configure_discipline (s : State) :
  can_connect self = true →
  restart_discipline is_ChangeError self s (Charm.consul_config self)
    (Charm._configure self s).
Proof.
  intros Hc. rewrite (charm_configure_run self s Hc).
  apply configure_run_discipline;
    [apply charm_publication_step | apply py_eq_empty_build].
Qed.

Lemma legacy_configure_discipline (s : State) :
  can_connect self = true →
  restart_discipline is_ChangeError self s (Legacy.consul_config self)
    (Legacy._configure self s).
Proof.
  intros Hc. rewrite (legacy_configure_run self s Hc).
  apply configure_run_discipline;
    [apply legacy_publication_step | apply py_eq_empty_build].
Qed.


End Discipline.



(** ** Idempotence of the reconcile cycle *)

Section Idempotence.
Context `{JsonCodec}.
Variable self : HookCtx.


End Idempotence.



(** ** Join addresses *)

Section JoinAddresses.
Context `{JsonCodec}.
Variable self : HookCtx.

Lemma charm_update_consul_config_effects (s : State) (path text : string) :
  EPush path text ∈ effects (Charm._update_consul_config self s) →
  path = CONSUL_CONFIG_PATH ∧
  text = json_dumps (Some 2%nat) (Charm.consul_config self).
Proof.
  destruct (can_connect self) eqn:Hc.
  - rewrite (charm_update_consul_config_run self s Hc). unfold update_run.
    destruct (read_persisted s) as [doc|e];
      [destruct (py_eq doc (Charm.consul_config self))|];
      cbn [effects]; intros Hin; elem_destruct.
    injection Hin as -> ->. split; reflexivity.
  - unfold Charm._update_consul_config, _running_consul_config. rewrite Hc.
    cbn [negb]. unfold bind at 1. unfold ret at 1.
    change (py_eq (JDict []) (Charm.consul_config self)) with false.
    unfold_hook. cbn [effects]. intros Hin; elem_destruct.
    injection Hin as -> ->. split; reflexivity.
Qed.

(** C5. Whatever the application name, the model name and the ports,
    the internal join-address computation answers the one-element list
    ["<app>.<model>.svc:<serf_lan port>"], the rendered configuration's
    retry_join is that list, in the charm and in the earlier charm, with
    exposure enabled or not, and the file the cycle writes is the dump of
    that rendered configuration. *)
Theorem retry_join_is_internal :
  Charm._get_internal_join_addresses self =
    [ app_name self +:+ "." +:+ model_name self +:+ ".svc:" +:+
      pretty (serf_lan (ports self)) ] ∧
  json_get "retry_join" (Charm.consul_config self) =
    Some (JList (JStr <$> Charm._get_internal_join_addresses self)) ∧
  (∀ s path text,
     EPush path text ∈ effects (Charm._update_consul_config self s) →
     path = CONSUL_CONFIG_PATH ∧
     text = json_dumps (Some 2%nat) (Charm.consul_config self)) ∧
  Legacy._get_join_addesses self true = Charm._get_internal_join_addresses self ∧
  json_get "retry_join" (Legacy.consul_config self) =
    Some (JList (JStr <$> Charm._get_internal_join_addresses self)).
Proof.
  split; [reflexivity|]. split; [reflexivity|].
  split; [intros s path text; apply charm_update_consul_config_effects|].
  assert (Hl : Legacy._get_join_addesses self true =
               Charm._get_internal_join_addresses self).
  { unfold Legacy._get_join_addesses. rewrite andb_false_r. reflexivity. }
  split; [exact Hl|].
  unfold Legacy.consul_config. rewrite Hl. reflexivity.
Qed.

Lemma collect_hostips_spec (pods : list Pod) (acc : gset string) (ip : string) :
  ip ∈ collect_hostips pods acc ↔
  ip ∈ acc ∨ ∃ pod, pod ∈ pods ∧ pod_status pod = Some {| hostIP := Some ip |} ∧ ip ≠ "".
Proof.
  revert acc. induction pods as [|pod pods IH]; intros acc; cbn [collect_hostips].
  - split; [auto|]. intros [Hin|(pod & Hin & _)]; [exact Hin|].
    apply elem_of_nil in Hin. destruct Hin.
  - assert (Hskip :
      (∀ ip', pod_status pod = Some {| hostIP := Some ip' |} → ip' = "") →
      ip ∈ collect_hostips pods acc ↔
      ip ∈ acc ∨ ∃ pod0, pod0 ∈ pod :: pods ∧
                 pod_status pod0 = Some {| hostIP := Some ip |} ∧ ip ≠ "").
    { intros Hnone. rewrite IH. split.
      - intros [Hin|(pod0 & Hin & Hst & Hne)]; [auto|].
        right. exists pod0. split; [by apply list_elem_of_further|auto].
      - intros [Hin|(pod0 & Hin & Hst & Hne)]; [auto|].
        apply elem_of_cons in Hin as [->|Hin].
        + destruct (Hne (Hnone _ Hst)).
        + right. exists pod0. auto. }
    destruct (pod_status pod) as [[[hostip|]]|] eqn:Hst;
      [|apply Hskip; intros ? [=]..].
    destruct (String.eqb hostip "") eqn:He; cbn [negb].
    + apply String.eqb_eq in He. apply Hskip. by intros ? [= <-].
    + apply String.eqb_neq in He. rewrite IH. split.
      * intros [Hin|(pod0 & Hin & Hst0 & Hne)].
        -- apply elem_of_union in Hin as [Hin|Hin]; [auto|].
           apply elem_of_singleton in Hin as ->.
           right. exists pod. split; [apply list_elem_of_here|auto].
        -- right. exists pod0. split; [by apply list_elem_of_further|auto].
      * intros [Hin|(pod0 & Hin & Hst0 & Hne)].
        -- left. apply elem_of_union. auto.
        -- apply elem_of_cons in Hin as [->|Hin].
           ++ rewrite Hst in Hst0. injection Hst0 as ->.
              left. apply elem_of_union. right. by apply elem_of_singleton.
           ++ right. exists pod0. auto.
Qed.

Lemma hostips_spec (ip : string) :
  ip ∈ _get_hostips_for_consul_service self (app_name self) (model_name self) ↔
  runs_on self ip.
Proof.
  unfold _get_hostips_for_consul_service, runs_on, client_list_pods.
  rewrite collect_hostips_spec. split.
  - intros [Hin|(pod & Hin & Hst & Hne)]; [by apply not_elem_of_empty in Hin|].
    apply list_elem_of_In, filter_In in Hin as [Hin Hm].
    apply andb_true_iff in Hm as [Hns Hlab].
    apply String.eqb_eq in Hns. apply bool_decide_eq_true in Hlab.
    exists pod. split; [by apply list_elem_of_In|auto].
  - intros (pod & Hin & Hns & Hlab & Hst & Hne). right. exists pod.
    split; [|auto]. apply list_elem_of_In, filter_In.
    split; [by apply list_elem_of_In|].
    apply andb_true_iff. split; [by apply String.eqb_eq|by apply bool_decide_eq_true].
Qed.

(** The external join addresses by the truth value of the option, which
    is all the code looks at: None for a falsy value; for a truthy one,
    one address "<hostIP>:<serflan-node-port>" for each host IP of the
    application's pods, each host IP once, in the order of the process. *)
Lemma external_join_addresses_by_truth :
  if truthy (cfg_expose_gossip_and_rpc_ports (config self))
  then ∃ ips, NoDup ips ∧ (∀ ip, ip ∈ ips ↔ runs_on self ip) ∧
              Charm._get_external_join_addresses self =
                Some ((fun ip => ip +:+ ":" +:+
                                 pretty (cfg_serflan_node_port (config self)))
                        <$> ips)
  else Charm._get_external_join_addresses self = None.
Proof.
  unfold Charm._get_external_join_addresses, hostip_addresses, ports, get_consul_ports.
  destruct (truthy (cfg_expose_gossip_and_rpc_ports (config self))); [|reflexivity].
  cbn [serf_lan].
  exists (set_iteration self
            (_get_hostips_for_consul_service self (app_name self) (model_name self))).
  split; [|split; [|reflexivity]].
  - rewrite (set_iteration_perm self). apply NoDup_elements.
  - intros ip. rewrite (set_iteration_perm self), elem_of_elements.
    apply hostips_spec.
Qed.

(** C6, at expose-gossip-and-rpc-ports = "false", the value of the enum
    that stands for exposure disabled. The code tests the truth value of
    the option, and a str that is not empty is true: the external join
    addresses are the host addresses, as for "nodeport", where the claim
    has None. For a value that is truthy the addresses are as the claim
    has them: one "<hostIP>:<serflan-node-port>" per host IP of the
    application's pods, each once; one pod on 10.10.0.10 with node port
    30501 gives ["10.10.0.10:30501"]. The hook at "false" does what the
    hook at "nodeport" does, call for call. *)
Theorem disabled_value_false_publishes_host_addresses :
  truthy (CfgStr "false") = true ∧
  Charm._get_external_join_addresses (Example.ctx (CfgStr "false") 30501 true None) =
    Some ["10.10.0.10:30501"] ∧
  Charm._get_external_join_addresses (Example.ctx (CfgStr "nodeport") 30501 true None) =
    Some ["10.10.0.10:30501"] ∧
  (if truthy (cfg_expose_gossip_and_rpc_ports (config self))
   then ∃ ips, NoDup ips ∧ (∀ ip, ip ∈ ips ↔ runs_on self ip) ∧
               Charm._get_external_join_addresses self =
                 Some ((fun ip => ip +:+ ":" +:+
                                  pretty (cfg_serflan_node_port (config self)))
                         <$> ips)
   else Charm._get_external_join_addresses self = None) ∧
  unit_status (final (config_changed_hook (CfgStr "false") 30501)) = ActiveStatus "" ∧
  requested_node_ports (config_changed_hook (CfgStr "false") 30501) =
    Some ("NodePort", [Some 30501; Some 30501; None]) ∧
  applied_serf_lan (config_changed_hook (CfgStr "false") 30501) = Some (JInt 30501) ∧
  effects (config_changed_hook (CfgStr "false") 30501) =
    effects (config_changed_hook (CfgStr "nodeport") 30501).
Proof.
  split; [reflexivity|].
  split; [vm_compute; reflexivity|].
  split; [vm_compute; reflexivity|].
  split; [apply external_join_addresses_by_truth|].
  repeat split; vm_compute; reflexivity.
Qed.

End JoinAddresses.

(** The join addresses of the application "consul-k8s" in the model
    "test-model" with the node port 30501 exposed: the file the cycle
    writes on a fresh workload carries the internal address. *)
Lemma retry_join_is_internal_witness :
  let self := Example.ctx (CfgStr "nodeport") 30501 true None in
  let text := RefJson.dumps (Some 2%nat) (Charm.consul_config self) in
  EPush CONSUL_CONFIG_PATH text ∈
    effects (@Charm._update_consul_config RefJson.codec self Example.fresh) ∧
  RefJson.loads text ≫= json_get "retry_join" =
    Some (JList [JStr "consul-k8s.test-model.svc:30501"]) ∧
  Charm._get_external_join_addresses self = Some ["10.10.0.10:30501"].
Proof.
  intros self text.
  assert (Hin : EPush CONSUL_CONFIG_PATH text ∈
                effects (@Charm._update_consul_config RefJson.codec self Example.fresh))
    by (vm_compute; elem_prove).
  destruct (@retry_join_is_internal RefJson.codec self) as (_ & _ & Hpush & _).
  destruct (Hpush _ _ _ Hin) as [_ Htext].
  split; [exact Hin|]. split; vm_compute; reflexivity.
Defined.

(** ** Leader-only writes *)

Section LeaderOnly.
Context `{JsonCodec}.
Variable self : HookCtx.

(** C7. On a unit that is not the leader, relation publication (the
    library's [set_cluster_config], and the charm method that calls it)
    and the Service reconciliation return without any effect: the state,
    with its databags and Service objects, is the one they were given. *)
Theorem non_leader_writes_nothing (s : State) :
  is_leader self = false →
  (∀ relation datacenter addresses,
     Provider.set_cluster_config self relation datacenter addresses s =
     {| outcome := Returns tt; final := s; effects := [] |}) ∧
  (∀ event,
     Legacy._set_config_on_related_apps self event s =
     {| outcome := Returns tt; final := s; effects := [] |}) ∧
  (∀ handler,
     K8sHandler._reconcile_service self handler s =
     {| outcome := Returns tt; final := s; effects := [] |}).
Proof.
  intros Hl.
  assert (Hp : ∀ relation datacenter addresses,
     Provider.set_cluster_config self relation datacenter addresses s =
     {| outcome := Returns tt; final := s; effects := [] |}).
  { intros. unfold Provider.set_cluster_config. rewrite Hl. reflexivity. }
  split; [exact Hp|]. split.
  - intros [rid|]; unfold Legacy._set_config_on_related_apps; apply Hp.
  - intros handler. unfold K8sHandler._reconcile_service. rewrite Hl. reflexivity.
Qed.

End LeaderOnly.

(** A non-leader unit asked to publish and to reconcile the Service,
    next to the leader, whose publication does reach the databag. *)
Lemma non_leader_writes_nothing_witness :
  let follower := Example.ctx (CfgBool false) 30501 false None in
  let leader := Example.ctx (CfgBool false) 30501 true None in
  let handler := {| K8sHandler._service_ports := [];
                    K8sHandler._service_type := K8sHandler.NodePort |} in
  is_leader follower = false ∧
  final (@Provider.set_cluster_config RefJson.codec follower None "test-dc"
           ["consul-k8s.test-model.svc:8301"] Example.fresh) = Example.fresh ∧
  final (K8sHandler._reconcile_service follower handler Example.fresh) = Example.fresh ∧
  databags (final (@Provider.set_cluster_config RefJson.codec leader None "test-dc"
                     ["consul-k8s.test-model.svc:8301"] Example.fresh))
    !! 1%nat ≫= (.!! "datacenter") = Some "test-dc".
Proof.
  intros follower leader handler.
  assert (Hf : is_leader follower = false) by reflexivity.
  destruct (@non_leader_writes_nothing RefJson.codec follower Example.fresh Hf)
    as (Hp & _ & Hk).
  split; [exact Hf|].
  split; [rewrite Hp; reflexivity|].
  split; [rewrite Hk; reflexivity|].
  vm_compute. reflexivity.
Defined.

(** ** The persisted document *)

Section PersistedDocument.
Context `{JsonCodec}.
Variable self : HookCtx.

(** X21. With no file at the path, the running configuration is the
    empty document and the cycle of either charm writes the file. *)
Lemma missing_config_file_forces_rewrite (s : State) :
  can_connect self = true →
  files s !! CONSUL_CONFIG_PATH = None →
  outcome (_running_consul_config self s) = Returns (JDict []) ∧
  config_written (Charm._configure self s) ∧
  config_written (Legacy._configure self s).
Proof.
  intros Hc Hf.
  assert (Hrd : outcome (_running_consul_config self s) = Returns (JDict [])).
  { rewrite (running_consul_config_run self s Hc). unfold read_persisted.
    by rewrite Hf. }
  destruct (charm_configure_discipline self s Hc) as (_ & Hc1 & _).
  destruct (legacy_configure_discipline self s Hc) as (_ & Hc2 & _).
  rewrite Hf in Hc1, Hc2.
  split; [exact Hrd|].
  split; [apply Hc1 | apply Hc2].
Qed.

(** C8, on a file that does not parse. [json.loads] raises
    [JSONDecodeError], which [_running_consul_config] does not catch
    (its [except] names [FileNotFoundError] and pebble's [Error]): the
    cycle of either charm ends with that exception, before any write and
    before any status is set. *)
Theorem corrupt_config_file_is_fatal (s : State) (text : string) :
  can_connect self = true →
  files s !! CONSUL_CONFIG_PATH = Some text →
  json_loads text = None →
  outcome (_running_consul_config self s) = Raises JSONDecodeError ∧
  Charm._configure self s =
    {| outcome := Raises JSONDecodeError; final := s; effects := [] |} ∧
  Legacy._configure self s =
    {| outcome := Raises JSONDecodeError; final := s; effects := [] |}.
Proof.
  intros Hc Hf Hl.
  assert (Hrd : read_persisted s = Raises JSONDecodeError).
  { unfold read_persisted. by rewrite Hf, Hl. }
  split; [rewrite (running_consul_config_run self s Hc); exact Hrd|].
  split.
  - rewrite (charm_configure_shape self s Hc). unfold configure_shape, bind.
    rewrite (charm_update_consul_config_run self s Hc). unfold update_run.
    by rewrite Hrd.
  - rewrite (legacy_configure_shape self s Hc). unfold configure_shape, bind.
    rewrite (legacy_update_consul_config_run self s Hc). unfold update_run.
    by rewrite Hrd.
Qed.

End PersistedDocument.

(** The cycle on a workload whose configuration file holds the text
    "{ bind_addr". *)
Lemma corrupt_config_file_is_fatal_witness :
  let self := Example.ctx (CfgBool false) 30501 true None in
  can_connect self = true ∧
  files Example.with_corrupt_file !! CONSUL_CONFIG_PATH = Some "{ bind_addr" ∧
  RefJson.loads "{ bind_addr" = None ∧
  outcome (@Charm._configure RefJson.codec self Example.with_corrupt_file) =
    Raises JSONDecodeError ∧
  unit_status (final (@Charm._configure RefJson.codec self Example.with_corrupt_file)) =
    MaintenanceStatus "".
Proof.
  intros self.
  assert (H1 : can_connect self = true) by reflexivity.
  assert (H2 : files Example.with_corrupt_file !! CONSUL_CONFIG_PATH =
               Some "{ bind_addr") by reflexivity.
  assert (H3 : @json_loads RefJson.codec "{ bind_addr" = None)
    by (vm_compute; reflexivity).
  destruct (@corrupt_config_file_is_fatal RefJson.codec self
              Example.with_corrupt_file _ H1 H2 H3) as (_ & Hr & _).
  split; [exact H1|]. split; [exact H2|]. split; [exact H3|].
  rewrite Hr. split; reflexivity.
Defined.

(** ** The requirer side of the consul-cluster relation *)

Section RequirerSide.
Context `{JsonCodec}.

Lemma all_str_fmap (l : list string) : all_str (JStr <$> l) = Some l.
Proof.
  induction l as [|a l IH]; [reflexivity|].
  cbn [fmap list_fmap all_str]. fold (JStr <$> l). by rewrite IH.
Qed.


(** C9, on a databag without the datacenter key. The model's field is
    declared [Field("Datacenter cluster name")], which makes that text
    the default: validation succeeds, config_changed is emitted and the
    [datacenter] property answers the text. *)
Theorem requirer_accepts_missing_datacenter (rel : Requirer.Relation)
    (event : nat) (l : list string) :
  Requirer.rel_app_data rel !! "datacenter" = None →
  Requirer.rel_app_data rel !! "server_join_addresses" ≫= json_loads =
    Some (JList (JStr <$> l)) →
  Requirer._validate_databag_from_relation (Some rel) = true ∧
  Requirer._on_relation_changed (Some rel) event = [Requirer.config_changed event] ∧
  Requirer.datacenter (Some rel) = Some (JStr "Datacenter cluster name") ∧
  Requirer.server_join_addresses (Some rel) = Some (JList (JStr <$> l)).
Proof.
  intros Hd Ha.
  assert (Hn : new_ConsulConfigProviderAppData (Requirer.rel_app_data rel) =
               Some {| data_datacenter := "Datacenter cluster name";
                       data_server_join_addresses := JList (JStr <$> l) |}).
  { unfold new_ConsulConfigProviderAppData, convert_str_to_list_of_str.
    rewrite Hd. destruct (Requirer.rel_app_data rel !! "server_join_addresses") as [v|];
      [|discriminate Ha].
    cbn [mbind option_bind] in Ha. rewrite Ha.
    cbn [mbind option_bind as_list_of_str]. by rewrite all_str_fmap. }
  unfold Requirer._on_relation_changed, Requirer.datacenter,
    Requirer.server_join_addresses, Requirer._get_app_databag_from_relation,
    Requirer._validate_databag_from_relation.
  rewrite Hn. unfold model_dump. cbn [data_datacenter data_server_join_addresses].
  split; [reflexivity|]. split; [reflexivity|].
  split.
  - apply lookup_insert_eq.
  - rewrite lookup_insert_ne by done. apply lookup_singleton_eq.
Qed.

(** An empty databag passes as well, and both properties answer the
    texts given to [Field]. *)
Lemma requirer_accepts_empty_databag (rid event : nat) :
  let rel := {| Requirer.rel_id := rid; Requirer.rel_app_data := ∅ |} in
  Requirer._on_relation_changed (Some rel) event = [Requirer.config_changed event] ∧
  Requirer.datacenter (Some rel) = Some (JStr "Datacenter cluster name") ∧
  Requirer.server_join_addresses (Some rel) =
    Some (JStr "Consul server join addresses").
Proof. repeat split. Qed.

Lemma dispatch_emits_config_changed_only (rel : option Requirer.Relation)
    (kind : Requirer.RelationEventKind) (event : nat) (e : Requirer.Emitted) :
  e ∈ Requirer.dispatch rel kind event → e = Requirer.config_changed event.
Proof.
  unfold Requirer.dispatch, Requirer.observers.
  cbn [flat_map fst snd Requirer.call app].
  unfold Requirer._on_relation_changed.
  destruct kind; cbn [Requirer.kind_eqb app];
    destruct (Requirer._validate_databag_from_relation rel); cbn [app];
    intros Hin;
    repeat match goal with
    | H : _ ∈ [] |- _ => apply elem_of_nil in H; destruct H
    | H : _ ∈ _ :: _ |- _ => apply elem_of_cons in H; destruct H as [H|H]; [exact H|]
    end.
Qed.

(** C10. The requirer observes relation_broken with the relation-changed
    handler; [_on_relation_broken], the one method that emits goneaway,
    is observed for no event. Whatever the history of relation events
    and of the relation's data, no goneaway event is emitted. *)
Theorem goneaway_never_emitted
    (history : list (Requirer.RelationEventKind * nat * option Requirer.Relation)) :
  (Requirer.goneaway ∉ Requirer.run_events history) ∧
  Forall (fun o => snd o = Requirer.m_on_relation_changed) Requirer.observers ∧
  (∀ event, Requirer._on_relation_broken event = [Requirer.goneaway]).
Proof.
  split; [|split; [repeat constructor | reflexivity]].
  unfold Requirer.run_events.
  induction history as [|[[kind event] rel] history IH]; cbn [flat_map].
  - apply not_elem_of_nil.
  - intros Hin. apply elem_of_app in Hin as [Hin|Hin]; [|exact (IH Hin)].
    apply dispatch_emits_config_changed_only in Hin. discriminate Hin.
Qed.

End RequirerSide.

(** The provider's databag with the datacenter key left out. *)
Lemma requirer_accepts_missing_datacenter_witness :
  let rel :=
    {| Requirer.rel_id := 1%nat;
       Requirer.rel_app_data :=
         {[ "server_join_addresses" :=
              RefJson.dumps None (JList [JStr "consul-k8s.test-model.svc:8301"]) ]} |} in
  Requirer.rel_app_data rel !! "datacenter" = None ∧
  Requirer.rel_app_data rel !! "server_join_addresses" ≫= RefJson.loads =
    Some (JList [JStr "consul-k8s.test-model.svc:8301"]) ∧
  @Requirer._on_relation_changed RefJson.codec (Some rel) 1%nat =
    [Requirer.config_changed 1%nat] ∧
  @Requirer.datacenter RefJson.codec (Some rel) =
    Some (JStr "Datacenter cluster name").
Proof.
  intros rel.
  assert (H1 : Requirer.rel_app_data rel !! "datacenter" = None) by reflexivity.
  assert (H2 : Requirer.rel_app_data rel !! "server_join_addresses" ≫= @json_loads RefJson.codec =
               Some (JList (JStr <$> ["consul-k8s.test-model.svc:8301"])))
    by (vm_compute; reflexivity).
  destruct (@requirer_accepts_missing_datacenter RefJson.codec rel 1%nat _ H1 H2)
    as (_ & He & Hd & _).
  split; [exact H1|]. split; [exact H2|]. split; [exact He | exact Hd].
Defined.

(** ** Configuration values the charm does not check *)

(** C3, at serflan-node-port 29999 with exposure enabled. The
    config-changed handler carries the range check as a TODO comment and
    runs the cycle: the unit ends Active, the port is written to the
    configuration file, consul is restarted on it and the Service patch
    asks for it as node port. The same holds above the range (32768);
    the boundary values 30000 and 32767 end Active as well. *)
Theorem out_of_range_node_port_is_applied :
  let r := config_changed_hook (CfgStr "nodeport") 29999 in
  (unit_status (final r) = ActiveStatus "" ∧
   app_status (final r) = ActiveStatus "" ∧
   applied_serf_lan r = Some (JInt 29999) ∧
   requested_node_ports r = Some ("NodePort", [Some 29999; Some 29999; None]) ∧
   restart_attempted r) ∧
  (unit_status (final (config_changed_hook (CfgStr "loadbalancer") 32768)) =
     ActiveStatus "" ∧
   applied_serf_lan (config_changed_hook (CfgStr "loadbalancer") 32768) =
     Some (JInt 32768)) ∧
  unit_status (final (config_changed_hook (CfgStr "nodeport") 30000)) =
    ActiveStatus "" ∧
  unit_status (final (config_changed_hook (CfgStr "loadbalancer") 32767)) =
    ActiveStatus "".
Proof.
  intros r. split; [|split; [|split]].
  - split; [vm_compute; reflexivity|]. split; [vm_compute; reflexivity|].
    split; [vm_compute; reflexivity|]. split; [vm_compute; reflexivity|].
    vm_compute. elem_prove.
  - split; vm_compute; reflexivity.
  - vm_compute. reflexivity.
  - vm_compute. reflexivity.
Qed.

(** Every str but the empty one counts as exposure enabled. *)
Lemma nonempty_str_enables_exposure (self : HookCtx) (v : string) :
  cfg_expose_gossip_and_rpc_ports (config self) = CfgStr v →
  v ≠ "" →
  serf_lan (get_consul_ports self) = cfg_serflan_node_port (config self) ∧
  Charm._get_external_join_addresses self ≠ None.
Proof.
  intros Hv Hne. unfold get_consul_ports, Charm._get_external_join_addresses.
  rewrite Hv. cbn [truthy serf_lan].
  apply String.eqb_neq in Hne. rewrite Hne. split; [reflexivity|discriminate].
Qed.

(** C4, at expose-gossip-and-rpc-ports = "invalid". The option is only
    tested for truth: the hook ends Active and behaves as for nodeport,
    with the node port as serf_lan port in the configuration file, a
    NodePort Service patch, no cluster-internal ports opened and the
    host addresses published as external join addresses. *)
Theorem invalid_expose_value_enables_exposure :
  let r := config_changed_hook (CfgStr "invalid") 30501 in
  unit_status (final r) = ActiveStatus "" ∧
  app_status (final r) = ActiveStatus "" ∧
  applied_serf_lan r = Some (JInt 30501) ∧
  requested_node_ports r = Some ("NodePort", [Some 30501; Some 30501; None]) ∧
  opened_ports (final r) = [] ∧
  Charm._get_external_join_addresses (Example.ctx (CfgStr "invalid") 30501 true None) =
    Some ["10.10.0.10:30501"] ∧
  effects r = effects (config_changed_hook (CfgStr "nodeport") 30501).
Proof.
  intros r. repeat split; vm_compute; reflexivity.
Qed.

Section ProviderTheorems.
Context `{JsonCodec}.
Variable self : HookCtx.

(** X1. Asked for one relation, the leader's [set_cluster_config] makes two
    writes, datacenter and then server_join_addresses (the JSON text of
    the address list), both to the application databag of that relation.
    The other keys of that databag, the databags of the other relations
    and the rest of the state stay as they were. *)
Theorem provider_writes_one_relation (rid : nat) (dc : string)
    (addrs : list string) (s : State) :
  is_leader self = true →
  let text := json_dumps None (JList (JStr <$> addrs)) in
  let r := Provider.set_cluster_config self (Some rid) dc addrs s in
  outcome r = Returns tt ∧
  effects r = [ERelationSet rid "datacenter" dc;
               ERelationSet rid "server_join_addresses" text] ∧
  databags (final r) !! rid =
    Some (config_written_to dc text (default ∅ (databags s !! rid))) ∧
  (∀ rid', rid' ≠ rid → databags (final r) !! rid' = databags s !! rid') ∧
  same_but_databags s (final r).
Proof.
  intros Hl. cbn zeta.
  pose proof (set_cluster_config_databags self (Some rid) dc addrs s) as Hd.
  cbn zeta in Hd.
  split; [|split; [|split; [|split]]].
  - apply set_cluster_config_frame.
  - unfold Provider.set_cluster_config. rewrite Hl. cbn [negb].
    by rewrite write_config_closed.
  - rewrite (Hd rid Hl). by rewrite decide_True.
  - intros rid' Hne. rewrite (Hd rid' Hl). by rewrite decide_False.
  - destruct (set_cluster_config_run self (Some rid) dc addrs s)
      as (s' & es & -> & _ & Hs). exact Hs.
Qed.

(** X2. Asked for no relation in particular, the leader's
    [set_cluster_config] writes the two keys to the databag of every
    relation there is: each databag keeps its other keys, no relation is
    added or dropped, and the rest of the state stays as it was. *)
Theorem provider_broadcast_reaches_every_relation (dc : string)
    (addrs : list string) (s : State) :
  is_leader self = true →
  let text := json_dumps None (JList (JStr <$> addrs)) in
  let r := Provider.set_cluster_config self None dc addrs s in
  outcome r = Returns tt ∧
  (∀ rid, databags (final r) !! rid =
          config_written_to dc text <$> databags s !! rid) ∧
  dom (databags (final r)) = dom (databags s) ∧
  same_but_databags s (final r).
Proof.
  intros Hl. cbn zeta.
  pose proof (set_cluster_config_databags self None dc addrs s) as Hd.
  cbn zeta in Hd.
  split; [|split; [|split]].
  - apply set_cluster_config_frame.
  - intros rid. apply (Hd rid Hl).
  - apply set_cluster_config_dom.
  - destruct (set_cluster_config_run self None dc addrs s)
      as (s' & es & -> & _ & Hs). exact Hs.
Qed.

(** X3. Publishing the same cluster configuration a second time changes
    nothing: the state after two calls of [set_cluster_config] is the
    state after one, on the leader and on any other unit, for one
    relation and for all. *)
Theorem provider_publication_idempotent (relation : option nat) (dc : string)
    (addrs : list string) (s : State) :
  let r := Provider.set_cluster_config self relation dc addrs s in
  final (Provider.set_cluster_config self relation dc addrs (final r)) = final r.
Proof.
  cbn zeta. destruct (is_leader self) eqn:Hl.
  - destruct (set_cluster_config_frame self relation dc addrs s) as [_ Hf1].
    destruct (set_cluster_config_frame self relation dc addrs
                (final (Provider.set_cluster_config self relation dc addrs s)))
      as [_ Hf2].
    cbn zeta in Hf1, Hf2. rewrite Hf2. rewrite Hf1 at 2 3.
    rewrite with_databags_twice. f_equal.
    apply map_eq. intros rid.
    rewrite (set_cluster_config_databags self relation dc addrs _ rid Hl).
    rewrite !(set_cluster_config_databags self relation dc addrs s _ Hl).
    destruct relation as [rid'|].
    + destruct (decide (rid = rid')) as [->|Hne]; [|reflexivity].
      cbn [default from_option id]. by rewrite config_written_to_idem.
    + destruct (databags s !! rid) as [bag|]; [|reflexivity].
      cbn [fmap option_fmap option_map]. by rewrite config_written_to_idem.
  - unfold Provider.set_cluster_config. rewrite Hl. reflexivity.
Qed.

(** A databag the provider has written to validates on the other side,
    whatever else it holds. *)
Lemma written_databag_validates (dc : string) (addrs : list string)
    (bag : gmap string string) :
  json_round_trip None (JList (JStr <$> addrs)) →
  new_ConsulConfigProviderAppData
    (config_written_to dc (json_dumps None (JList (JStr <$> addrs))) bag) =
  Some {| data_datacenter := dc;
          data_server_join_addresses := JList (JStr <$> addrs) |}.
Proof.
  intros Hrt. unfold new_ConsulConfigProviderAppData, config_written_to,
    convert_str_to_list_of_str.
  rewrite lookup_insert_eq. rewrite lookup_insert_ne by done.
  rewrite lookup_insert_eq. unfold json_round_trip in Hrt. rewrite Hrt.
  cbn [mbind option_bind as_list_of_str]. rewrite all_str_fmap.
  reflexivity.
Qed.

(** X4. What the leader publishes is what the requirer reads: once
    [set_cluster_config] has written to a relation (the one asked for, or
    any existing one when all are asked for), and Python's json reads
    back the address list it wrote, the requirer accepts the databag,
    emits config_changed, and its properties answer the datacenter and
    the list of addresses the provider was given. *)
Theorem provider_requirer_round_trip (relation : option nat) (rid event : nat)
    (dc : string) (addrs : list string) (s : State) :
  is_leader self = true →
  json_round_trip None (JList (JStr <$> addrs)) →
  relation = Some rid ∨ (relation = None ∧ is_Some (databags s !! rid)) →
  let r := Provider.set_cluster_config self relation dc addrs s in
  let rel := Some (seen_by_requirer rid (final r)) in
  Requirer._validate_databag_from_relation rel = true ∧
  Requirer._on_relation_changed rel event = [Requirer.config_changed event] ∧
  Requirer.datacenter rel = Some (JStr dc) ∧
  Requirer.server_join_addresses rel = Some (JList (JStr <$> addrs)).
Proof.
  intros Hl Hrt Hrel. cbn zeta.
  assert (Hbag : ∃ bag,
    Requirer.rel_app_data
      (seen_by_requirer rid
         (final (Provider.set_cluster_config self relation dc addrs s))) =
    config_written_to dc (json_dumps None (JList (JStr <$> addrs))) bag).
  { unfold seen_by_requirer. cbn [Requirer.rel_app_data].
    rewrite (set_cluster_config_databags self relation dc addrs s rid Hl).
    destruct Hrel as [->|[-> [bag Hbag]]].
    - rewrite decide_True by done. by eexists.
    - rewrite Hbag. by eexists. }
  destruct Hbag as [bag Hbag].
  unfold Requirer._on_relation_changed, Requirer.datacenter,
    Requirer.server_join_addresses, Requirer._get_app_databag_from_relation,
    Requirer._validate_databag_from_relation.
  rewrite Hbag, (written_databag_validates dc addrs bag Hrt).
  unfold model_dump. cbn [data_datacenter data_server_join_addresses].
  split; [reflexivity|]. split; [reflexivity|]. split.
  - apply lookup_insert_eq.
  - rewrite lookup_insert_ne by done. apply lookup_singleton_eq.
Qed.

End ProviderTheorems.

(** The leader answering a request on relation 1 of a fresh model. *)
Lemma provider_writes_one_relation_witness :
  let self := Example.ctx (CfgBool false) 30501 true None in
  let r := @Provider.set_cluster_config RefJson.codec self (Some 1%nat) "test-dc"
             ["consul-k8s.test-model.svc:8301"] Example.fresh in
  is_leader self = true ∧
  effects r =
    [ERelationSet 1 "datacenter" "test-dc";
     ERelationSet 1 "server_join_addresses"
       (RefJson.dumps None (JList [JStr "consul-k8s.test-model.svc:8301"]))] ∧
  same_but_databags Example.fresh (final r).
Proof.
  intros self r.
  assert (Hl : is_leader self = true) by reflexivity.
  destruct (@provider_writes_one_relation RefJson.codec self 1%nat "test-dc"
              ["consul-k8s.test-model.svc:8301"] Example.fresh Hl)
    as (_ & He & _ & _ & Hs).
  split; [exact Hl|]. split; [exact He | exact Hs].
Defined.

(** The leader publishing to every relation of a fresh model: relation 1
    is there and gets the two keys, relation 2 is not and stays absent. *)
Lemma provider_broadcast_reaches_every_relation_witness :
  let self := Example.ctx (CfgBool false) 30501 true None in
  let r := @Provider.set_cluster_config RefJson.codec self None "test-dc"
             ["consul-k8s.test-model.svc:8301"] Example.fresh in
  is_leader self = true ∧
  dom (databags (final r)) = dom (databags Example.fresh) ∧
  databags (final r) !! 1%nat ≫= (.!! "datacenter") = Some "test-dc" ∧
  databags (final r) !! 2%nat = None.
Proof.
  intros self r.
  assert (Hl : is_leader self = true) by reflexivity.
  destruct (@provider_broadcast_reaches_every_relation RefJson.codec self "test-dc"
              ["consul-k8s.test-model.svc:8301"] Example.fresh Hl)
    as (_ & Hd & Hdom & _).
  split; [exact Hl|]. split; [exact Hdom|].
  split; rewrite Hd; reflexivity.
Defined.

(** The round trip on relation 1 of a fresh model, through the reference
    codec. *)
Lemma provider_requirer_round_trip_witness :
  let self := Example.ctx (CfgBool false) 30501 true None in
  let addrs := ["consul-k8s.test-model.svc:8301"] in
  let r := @Provider.set_cluster_config RefJson.codec self None "test-dc" addrs
             Example.fresh in
  let rel := Some (seen_by_requirer 1 (final r)) in
  is_leader self = true ∧
  @json_round_trip RefJson.codec None (JList (JStr <$> addrs)) ∧
  is_Some (databags Example.fresh !! 1%nat) ∧
  @Requirer.datacenter RefJson.codec rel = Some (JStr "test-dc") ∧
  @Requirer.server_join_addresses RefJson.codec rel =
    Some (JList [JStr "consul-k8s.test-model.svc:8301"]).
Proof.
  intros self addrs r rel.
  assert (Hl : is_leader self = true) by reflexivity.
  assert (Hrt : @json_round_trip RefJson.codec None (JList (JStr <$> addrs)))
    by (vm_compute; reflexivity).
  assert (Hb : is_Some (databags Example.fresh !! 1%nat)) by (by eexists).
  destruct (@provider_requirer_round_trip RefJson.codec self None 1%nat 1%nat
              "test-dc" addrs Example.fresh Hl Hrt (or_intror (conj eq_refl Hb)))
    as (_ & _ & Hdc & Ha).
  split; [exact Hl|]. split; [exact Hrt|]. split; [exact Hb|].
  split; [exact Hdc | exact Ha].
Defined.

(** ** What a reconcile cycle does, in both charm files *)

Section CycleTheorems.
Context `{JsonCodec}.
Variable self : HookCtx.


(** X6. A reconcile cycle keeps to its own: whatever the state and however
    it ends, the opened ports, the Service objects, every file of the
    workload but /consul/config/server.json, every service of the pebble
    plan but consul's, and the set of relations are after the cycle what
    they were before. *)
Theorem cycle_touches_only_its_own (s : State) :
  cycle_frame s (final (Charm._configure self s)) ∧
  cycle_frame s (final (Legacy._configure self s)).
Proof. apply configure_frame. Qed.

(** X7. On a reachable workload, a cycle of either charm that returns,
    or that came as far as the restart, leaves the workload agreeing
    with what it rendered, whatever pebble answered to the restart:
    consul's service is in the plan as the layer declares it, and the
    configuration file is there, holding the text of the rendered
    document or a text that reads as a document equal to it. *)
Theorem cycle_converges (s : State) :
  can_connect self = true →
  (outcome (Charm._configure self s) = Returns tt ∨
   restart_attempted (Charm._configure self s) →
   converged (Charm.consul_config self)
     (json_dumps (Some 2%nat) (Charm.consul_config self))
     (final (Charm._configure self s))) ∧
  (outcome (Legacy._configure self s) = Returns tt ∨
   restart_attempted (Legacy._configure self s) →
   converged (Legacy.consul_config self)
     (json_dumps None (Legacy.consul_config self))
     (final (Legacy._configure self s))).
Proof.
  intros Hc.
  rewrite (charm_configure_run self s Hc), (legacy_configure_run self s Hc).
  split; intros Hr; apply configure_run_converges;
    first [ apply charm_publication_step | apply legacy_publication_step
          | apply py_eq_empty_build
          | exact (configure_run_readable self _ _ _ s Hr) ].
Qed.

(** X8. A restart that pebble failed is not tried again. The cycle that ends
    Blocked on it has already written the file and applied the layer, so
    the next cycle on the same configuration (with Python's json reading
    back what it wrote and no foreign service in the plan) finds nothing
    changed: it restarts nothing and sets the unit Active, whatever
    pebble would answer to a restart by then. *)
Theorem failed_restart_is_not_retried (s : State) (m : string) (f : option exn) :
  can_connect self = true →
  restart_failure self = Some (ChangeError m) →
  only_consul_service s →
  json_round_trip (Some 2%nat) (Charm.consul_config self) →
  restart_attempted (Charm._configure self s) →
  let r1 := Charm._configure self s in
  unit_status (final r1) = BlockedStatus ("Failed to restart Consul: " +:+ m) ∧
  quiet_cycle (Charm._configure (with_restart_failure f self) (final r1)).
Proof.
  intros Hc Hrf Hplan Hrt Hre. cbn zeta.
  destruct (charm_configure_discipline self s Hc) as (_ & _ & Hfail).
  destruct (Hfail (ChangeError m) Hrf Hre) as (_ & _ & _ & Hu & _).
  cbn zeta in Hu. cbn [exn_str] in Hu.
  split; [exact Hu|].
  assert (Hc' : can_connect (with_restart_failure f self) = true) by exact Hc.
  rewrite (charm_configure_run self s Hc) in Hre |- *.
  rewrite (charm_configure_run (with_restart_failure f self) _ Hc').
  change (Charm.consul_config (with_restart_failure f self))
    with (Charm.consul_config self).
  pose proof (configure_run_readable self _ _ _ s (or_intror Hre)) as Hread.
  destruct (configure_run_settles self
              (Charm._set_endpoints_on_related_apps self None)
              (Charm.consul_config self)
              (json_dumps (Some 2%nat) (Charm.consul_config self)) s
              (charm_publication_step self) (py_eq_empty_build _) Hread Hplan)
    as ((doc & Hrd & He) & Hpl).
  { exists (Charm.consul_config self). split; [exact Hrt | apply py_eq_build_refl]. }
  cbn zeta in Hrd, Hpl.
  exact (configure_run_quiet (with_restart_failure f self) _ _ _ _ doc
           (charm_publication_step _) Hrd He Hpl).
Qed.

End CycleTheorems.

(** The first cycle on a workload that was never configured, whose
    restart ends with pebble out of reach: the cycle raises, and yet the
    file and the service are in place. *)
Lemma cycle_converges_witness :
  let self := with_restart_failure (Some (ConnectionError "cannot reach pebble"))
                (Example.ctx (CfgBool false) 30501 true None) in
  let r := @Charm._configure RefJson.codec self Example.fresh in
  can_connect self = true ∧
  restart_attempted r ∧
  outcome r = Raises (ConnectionError "cannot reach pebble") ∧
  files (final r) !! CONSUL_CONFIG_PATH =
    Some (RefJson.dumps (Some 2%nat) (Charm.consul_config self)) ∧
  @converged RefJson.codec (Charm.consul_config self)
    (RefJson.dumps (Some 2%nat) (Charm.consul_config self)) (final r).
Proof.
  intros self r.
  assert (Hc : can_connect self = true) by reflexivity.
  assert (Hre : restart_attempted r) by (vm_compute; elem_prove).
  destruct (@cycle_converges RefJson.codec self Example.fresh Hc) as (Hconv & _).
  split; [exact Hc|]. split; [exact Hre|].
  split; [vm_compute; reflexivity|]. split; [vm_compute; reflexivity|].
  exact (Hconv (or_intror Hre)).
Defined.

(** Two cycles on a fresh workload: pebble fails the restart of the
    first, and the second, with pebble well again, does not restart. *)
Lemma failed_restart_is_not_retried_witness :
  let self := Example.ctx (CfgBool false) 30501 true (Some "cannot start consul") in
  let r1 := @Charm._configure RefJson.codec self Example.fresh in
  let r2 := @Charm._configure RefJson.codec (with_restart_failure None self)
              (final r1) in
  can_connect self = true ∧
  restart_failure self = Some (ChangeError "cannot start consul") ∧
  only_consul_service Example.fresh ∧
  @json_round_trip RefJson.codec (Some 2%nat) (Charm.consul_config self) ∧
  restart_attempted r1 ∧
  unit_status (final r1) =
    BlockedStatus "Failed to restart Consul: cannot start consul" ∧
  quiet_cycle r2.
Proof.
  intros self r1 r2.
  assert (H1 : can_connect self = true) by reflexivity.
  assert (H2 : restart_failure self = Some (ChangeError "cannot start consul"))
    by reflexivity.
  assert (H3 : only_consul_service Example.fresh) by (intros name _; reflexivity).
  assert (H4 : @json_round_trip RefJson.codec (Some 2%nat) (Charm.consul_config self))
    by (vm_compute; reflexivity).
  assert (H5 : restart_attempted r1) by (vm_compute; elem_prove).
  split; [exact H1|]. split; [exact H2|]. split; [exact H3|].
  split; [exact H4|]. split; [exact H5|].
  exact (@failed_restart_is_not_retried RefJson.codec self Example.fresh
           "cannot start consul" None H1 H2 H3 H4 H5).
Defined.

(** ** What the earlier charm's cycle publishes *)

Section LegacyPublication.
Context `{JsonCodec}.
Variable self : HookCtx.

(** X10. On the leader, a cycle of the earlier charm that completes
    successfully leaves, in the databag of every relation, the
    configured datacenter and the JSON text of the join addresses for
    clients, next to whatever other keys the databag held; a cycle that
    does not complete successfully leaves every databag as it was. *)
Theorem legacy_cycle_publishes (s : State) :
  can_connect self = true →
  is_leader self = true →
  let r := Legacy._configure self s in
  let text :=
    json_dumps None (JList (JStr <$> Legacy._get_join_addesses self false)) in
  (cycle_succeeded r →
   ∀ rid, databags (final r) !! rid =
          config_written_to (cfg_datacenter (config self)) text
            <$> databags s !! rid) ∧
  (¬ cycle_succeeded r → databags (final r) = databags s).
Proof.
  intros Hc Hl. cbn zeta. rewrite (legacy_configure_run self s Hc).
  unfold configure_run, cycle_succeeded.
  destruct (read_persisted s) as [doc|e]; cbn [outcome final];
    [|split; [intros [Ho _]; discriminate Ho | reflexivity]].
  destruct (py_eq doc (Legacy.consul_config self));
    destruct (bool_decide (plan_services s = layer_services _pebble_layer));
    cbn [negb orb].
  all: restart_cases self; cbn [outcome final].
  all: try match goal with
       | |- context [status_state self ?st ?s0] =>
           destruct (status_state_frame self st s0)
             as (_ & _ & Hd & _ & _ & Hu & _); rewrite Hd, Hu
       end.
  all: split;
    [ intros [Ho Hst]; try discriminate Ho; try discriminate Hst
    | intros Hn; try reflexivity; try (destruct Hn; split; reflexivity) ].
  all: intros rid; unfold Legacy._set_config_on_related_apps;
    rewrite (set_cluster_config_databags self None _ _ _ rid Hl);
    reflexivity.
Qed.

End LegacyPublication.

(** The leader's first cycle on a fresh workload with one relation. *)
Lemma legacy_cycle_publishes_witness :
  let self := Example.ctx (CfgBool false) 30501 true None in
  let r := @Legacy._configure RefJson.codec self Example.fresh in
  can_connect self = true ∧ is_leader self = true ∧ cycle_succeeded r ∧
  databags (final r) !! 1%nat =
    Some {[ "datacenter" := "test-dc";
            "server_join_addresses" :=
              RefJson.dumps None (JList [JStr "consul-k8s.test-model.svc:8301"]) ]}.
Proof.
  intros self r.
  assert (H1 : can_connect self = true) by reflexivity.
  assert (H2 : is_leader self = true) by reflexivity.
  assert (H3 : cycle_succeeded r) by (split; vm_compute; reflexivity).
  destruct (@legacy_cycle_publishes RefJson.codec self Example.fresh H1 H2)
    as [Hpub _].
  split; [exact H1|]. split; [exact H2|]. split; [exact H3|].
  cbn zeta in Hpub. unfold r. rewrite (Hpub H3 1%nat). vm_compute. reflexivity.
Defined.

(** ** config_builder.py: which inputs reach the document *)

Lemma py_eq_str_list (l l' : list string) :
  py_eq (JList (JStr <$> l)) (JList (JStr <$> l')) = true → l = l'.
Proof.
  revert l'. induction l as [|a l IH]; intros [|a' l'] Heq;
    try reflexivity; try discriminate Heq.
  change (py_eq (JStr a) (JStr a') &&
          py_eq (JList (JStr <$> l)) (JList (JStr <$> l')) = true) in Heq.
  apply andb_true_iff in Heq as [Ha Hl]. cbn [py_eq] in Ha.
  apply String.eqb_eq in Ha as ->. by rewrite (IH l' Hl).
Qed.

Lemma rendered_inputs_build (a b : ConsulConfigBuilder) :
  rendered_inputs a = rendered_inputs b → build a = build b.
Proof.
  unfold rendered_inputs, build. cbn zeta.
  intros Heq. injection Heq as Hdns Hhttp Hhttps Hgrpc Hgrpc_tls Hserf_lan
    Hserf_wan Hserver Hdc Hn Hjoin Hca Hcert Hkey.
  by rewrite Hdns, Hhttp, Hhttps, Hgrpc, Hgrpc_tls, Hserf_lan, Hserf_wan, Hserver,
    Hdc, Hn, Hjoin, Hca, Hcert, Hkey.
Qed.

(** X11. Two built documents are equal under Python's [==], which is the
    test that decides whether the cycle rewrites the file, exactly when
    the builders agree on the eight ports the document lists, the
    datacenter, the number of units, the join addresses and the three
    certificate paths in effect. The four sidecar and expose ports, and
    any other key of the certificates dict, have no part in it. *)
Theorem change_detection_is_exact (a b : ConsulConfigBuilder) :
  py_eq (build a) (build b) = true ↔ rendered_inputs a = rendered_inputs b.
Proof.
  split.
  - destruct a as [pa dca na la tlsa], b as [pb dcb nb lb tlsb].
    unfold build, rendered_inputs.
    cbn [builder_ports builder_datacenter builder_number_of_units
         builder_retry_join builder_tls_certificates].
    generalize (default "/consul/config/certs/ca.pem" (tlsa !! "ca_certificate_path")).
    generalize (default "/consul/config/certs/server-cert.pem"
                  (tlsa !! "server_certificate_path")).
    generalize (default "/consul/config/certs/server-key.pem"
                  (tlsa !! "server_key_path")).
    generalize (default "/consul/config/certs/ca.pem" (tlsb !! "ca_certificate_path")).
    generalize (default "/consul/config/certs/server-cert.pem"
                  (tlsb !! "server_certificate_path")).
    generalize (default "/consul/config/certs/server-key.pem"
                  (tlsb !! "server_key_path")).
    intros kb cb ab ka ca aa.
    pose proof (py_eq_str_list la lb) as Hl.
    generalize dependent (JStr <$> la). generalize dependent (JStr <$> lb).
    intros jlb jla Hl Heq. simpl in Heq, Hl.
    repeat match type of Heq with
           | _ && _ = true => apply andb_true_iff in Heq as [? Heq]
           end.
    repeat match goal with
           | H : _ && _ = true |- _ => apply andb_true_iff in H as [? ?]
           end.
    repeat match goal with
           | H : (_ =? _) = true |- _ => apply Z.eqb_eq in H
           | H : (_ =? _)%string = true |- _ => apply String.eqb_eq in H
           end.
    rewrite (Hl ltac:(assumption)). congruence.
  - intros Heq. rewrite (rendered_inputs_build a b Heq). apply py_eq_build_refl.
Qed.

(** ** Addresses for clients outside the cluster *)

Section ExternalAddresses.
Context `{JsonCodec}.
Variable self : HookCtx.

Lemma no_hostips :
  (∀ ip, ¬ runs_on self ip) →
  _get_hostips_for_consul_service self (app_name self) (model_name self) = ∅.
Proof.
  intros Hnone. apply set_eq. intros ip. rewrite hostips_spec.
  split; [intros Hr; destruct (Hnone ip Hr) | intros Hin].
  by apply not_elem_of_empty in Hin.
Qed.

(** X12. With exposure enabled and no pod of the application reporting a
    host IP, the addresses for clients are the empty list: the later
    charm's external join addresses are [[]] rather than None, and the
    earlier charm publishes [[]] rather than the cluster-internal
    address. In every case the earlier charm's addresses for clients are
    the later charm's external addresses where it has them, and its
    internal ones otherwise. *)
Theorem exposure_without_host_ips_publishes_no_address :
  truthy (cfg_expose_gossip_and_rpc_ports (config self)) = true →
  (∀ ip, ¬ runs_on self ip) →
  Charm._get_external_join_addresses self = Some [] ∧
  Legacy._get_join_addesses self false = [] ∧
  Legacy._get_join_addesses self false =
    default (Charm._get_internal_join_addresses self)
            (Charm._get_external_join_addresses self).
Proof.
  intros Hexp Hnone.
  unfold Charm._get_external_join_addresses, Legacy._get_join_addesses.
  rewrite Hexp. cbn [andb negb default from_option id].
  rewrite (no_hostips Hnone). unfold hostip_addresses.
  assert (Hnil : set_iteration self ∅ = []).
  { apply Permutation_nil_r. rewrite (set_iteration_perm self).
    by rewrite elements_empty. }
  rewrite Hnil. repeat split.
Qed.

End ExternalAddresses.

(** Exposure asked for while no pod of the application is listed. *)
Lemma exposure_without_host_ips_publishes_no_address_witness :
  let self := with_cluster_pods [] (Example.ctx (CfgStr "nodeport") 30501 true None) in
  truthy (cfg_expose_gossip_and_rpc_ports (config self)) = true ∧
  (∀ ip, ¬ runs_on self ip) ∧
  Charm._get_external_join_addresses self = Some [] ∧
  Legacy._get_join_addesses self false = [].
Proof.
  intros self.
  assert (H1 : truthy (cfg_expose_gossip_and_rpc_ports (config self)) = true)
    by reflexivity.
  assert (H2 : ∀ ip, ¬ runs_on self ip).
  { intros ip (pod & Hin & _). simpl in Hin. apply elem_of_nil in Hin.
    destruct Hin. }
  destruct (exposure_without_host_ips_publishes_no_address self H1 H2)
    as (Ha & Hb & _).
  split; [exact H1|]. split; [exact H2|]. split; [exact Ha | exact Hb].
Defined.

(** ** k8s_resource_handlers.py *)

Section ServiceHandler.
Variable charm : HookCtx.
Variable handler : K8sHandler.KubernetesServiceHandler.

Lemma construct_service_selects (pod : Pod) :
  selects (K8sHandler._construct_service charm handler) pod ↔
  pod_namespace pod = model_name charm ∧
  pod_labels pod !! "app.kubernetes.io/name" = Some (app_name charm).
Proof.
  unfold selects, K8sHandler._construct_service. cbn [ks_namespace ks_selector].
  split.
  - intros [Hns Hsel]. split; [exact Hns|]. apply Hsel, lookup_singleton_eq.
  - intros [Hns Hlab]. split; [exact Hns|]. intros k v Hk.
    apply lookup_singleton_Some in Hk as [<- <-]. exact Hlab.
Qed.

(** X13. On the leader, [_reconcile_service] leaves exactly one managed
    Service, the one [_construct_service] builds, whatever was managed
    before, and doing it again changes nothing. That Service is named
    after the application with the suffix -lb, and the pods it selects
    are the pods of the model that carry the application's label: the
    very pods whose host IPs the charm collects as addresses for
    clients outside the cluster. *)
Theorem reconciled_service_selects_the_application_pods (s : State) :
  is_leader charm = true →
  let svc := K8sHandler._construct_service charm handler in
  let r := K8sHandler._reconcile_service charm handler s in
  k8s_services (final r) = [svc] ∧
  effects r = [EReconcile [svc]] ∧
  final (K8sHandler._reconcile_service charm handler (final r)) = final r ∧
  ks_name svc = app_name charm +:+ "-lb" ∧
  ∀ pod, pod ∈ client_list_pods charm (model_name charm)
                 "app.kubernetes.io/name" (app_name charm) ↔
         pod ∈ cluster_pods charm ∧ selects svc pod.
Proof.
  intros Hl. cbn zeta. unfold K8sHandler._reconcile_service. rewrite Hl.
  cbn [negb]. unfold klm_reconcile, act. cbn [final effects k8s_services
    with_k8s_services].
  split; [reflexivity|]. split; [reflexivity|]. split; [reflexivity|].
  split; [reflexivity|].
  intros pod. rewrite construct_service_selects. unfold client_list_pods.
  rewrite list_elem_of_In, filter_In, andb_true_iff, String.eqb_eq,
    bool_decide_eq_true, <- list_elem_of_In. reflexivity.
Qed.

(** X14. [get_loadbalancer_ip] answers an address in one case only: the
    handler is of type LoadBalancer, the API returned the Service, the
    Service has a status with a load balancer status whose ingress list
    is not empty, and the first entry of that list carries the address.
    A NodePort handler, an API error, a status or ingress list that is
    missing or empty, and an address on a later entry only, all give
    None. *)
Theorem loadbalancer_ip_is_first_ingress (answer : LoadBalancer.GetService)
    (addr : string) :
  LoadBalancer.get_loadbalancer_ip handler answer = Some addr ↔
  K8sHandler._service_type handler = K8sHandler.LoadBalancer ∧
  ∃ status lb first rest,
    answer = LoadBalancer.Found (Some status) ∧
    LoadBalancer.loadBalancer status = Some lb ∧
    LoadBalancer.ingress lb = Some (first :: rest) ∧
    LoadBalancer.ip first = Some addr.
Proof.
  unfold LoadBalancer.get_loadbalancer_ip. split.
  - destruct (K8sHandler._service_type handler); [discriminate|].
    destruct answer as [|[status|]]; try discriminate.
    destruct (LoadBalancer.loadBalancer status) as [lb|] eqn:Hlb; [|discriminate].
    destruct (LoadBalancer.ingress lb) as [[|first rest]|] eqn:Hin;
      try discriminate.
    intros Hip. split; [reflexivity|]. by exists status, lb, first, rest.
  - intros (-> & status & lb & first & rest & -> & Hlb & Hin & Hip).
    by rewrite Hlb, Hin.
Qed.

End ServiceHandler.

(** The leader reconciling a NodePort Service over a state that managed
    none. *)
Lemma reconciled_service_selects_the_application_pods_witness :
  let charm := Example.ctx (CfgStr "nodeport") 30501 true None in
  let handler := {| K8sHandler._service_ports := [];
                    K8sHandler._service_type := K8sHandler.NodePort |} in
  let svc := K8sHandler._construct_service charm handler in
  is_leader charm = true ∧
  k8s_services (final (K8sHandler._reconcile_service charm handler Example.fresh)) =
    [svc] ∧
  ks_name svc = "consul-k8s-lb" ∧
  selects svc (Example.pod "10.10.0.10").
Proof.
  intros charm handler svc.
  assert (Hl : is_leader charm = true) by reflexivity.
  destruct (reconciled_service_selects_the_application_pods charm handler
              Example.fresh Hl) as (Hk & _ & _ & Hn & Hsel).
  split; [exact Hl|]. split; [exact Hk|]. split; [exact Hn|].
  apply (Hsel (Example.pod "10.10.0.10")). vm_compute. apply list_elem_of_here.
Defined.

(** ** What the status tells *)

Section StatusTells.
Context `{JsonCodec}.
Variable self : HookCtx.

Lemma configure_run_status_tells (publish : M unit) (rendered : json)
    (text : string) (s : State) :
  can_connect self = true →
  publication_step publish →
  status_tells self s (configure_run self rendered text publish s).
Proof.
  intros Hc Hpub. unfold status_tells, configure_run.
  destruct (read_persisted s) as [doc|e]; [|reflexivity].
  destruct (py_eq doc rendered);
    destruct (bool_decide (plan_services s = layer_services _pebble_layer));
    cbn [negb orb].
  all: restart_cases self; cbn [outcome final effects].
  all: try reflexivity.
  all: match goal with
       | |- context [status_state self ?st ?s0] =>
           destruct (status_state_frame self st s0)
             as (_ & _ & _ & _ & _ & Hu & _); rewrite Hu
       end.
  all: try match goal with
       | |- context [effects (?p ?s0)] =>
           destruct (Hpub s0) as (_ & Hall & _)
       end.
  all: split; [first [reflexivity | exact Hc]|].
  all: split; [first [exact Hc | unfold restart_attempted; cbn [effects app];
                                 by elem_prove]|].
  all: first
    [ (* Blocked: the error is the ChangeError *)
      destruct e; try discriminate Hce; by eexists
    | reflexivity
    | intros _; reflexivity
    | unfold restart_attempted; cbn [effects app]; intros Hre;
      exfalso; elem_destruct ].
Qed.

(** X15. After a cycle of either charm the unit's status tells what
    happened. It is Waiting only when the workload was out of reach, and
    then the cycle did nothing but set the status; Blocked only when a
    restart was attempted and pebble failed it, the message ending in
    pebble's error; Active only when every restart attempted went
    through. No cycle leaves another status, and one that raises leaves
    the status as it found it. *)
Theorem cycle_status_tells (s : State) :
  status_tells self s (Charm._configure self s) ∧
  status_tells self s (Legacy._configure self s).
Proof.
  destruct (can_connect self) eqn:Hc.
  - rewrite (charm_configure_run self s Hc), (legacy_configure_run self s Hc).
    split; apply configure_run_status_tells;
      first [exact Hc | apply charm_publication_step | apply legacy_publication_step].
  - destruct (configure_unreachable self s Hc) as [-> ->]. cbn zeta.
    unfold status_tells. cbn [outcome final effects].
    destruct (status_state_frame self (WaitingStatus "Waiting for Pebble ready") s)
      as (_ & _ & _ & _ & _ & Hu & _). rewrite Hu, Hc.
    assert (Hst : Forall (fun e => is_status_effect e = true)
                    (status_effects self (WaitingStatus "Waiting for Pebble ready")))
      by (unfold status_effects; destruct (is_leader self); repeat constructor).
    repeat split; exact Hst.
Qed.

End StatusTells.

(** ** Ports, hook by hook *)

Section HookPorts.
Context `{JsonCodec}.
Variable self : HookCtx.

Lemma open_ports_run (s : State) :
  open_ports self s =
  if truthy (cfg_expose_gossip_and_rpc_ports (config self)) then
    {| outcome :=
         Returns (Some
           {| ksp_ports :=
                [ {| sp_port := serf_lan (ports self);
                     sp_name := "juju-" +:+ pretty (serf_lan (ports self)) +:+ "-tcp";
                     sp_protocol := "TCP";
                     sp_nodePort := Some (serf_lan (ports self));
                     sp_targetPort := None |};
                  {| sp_port := serf_lan (ports self);
                     sp_name := "juju-" +:+ pretty (serf_lan (ports self)) +:+ "-udp";
                     sp_protocol := "UDP";
                     sp_nodePort := Some (serf_lan (ports self));
                     sp_targetPort := None |};
                  {| sp_port := http (ports self);
                     sp_name := "juju-" +:+ pretty (http (ports self)) +:+ "-tcp";
                     sp_protocol := "TCP";
                     sp_nodePort := None;
                     sp_targetPort := Some (http (ports self)) |} ];
              ksp_service_name := app_name self;
              ksp_service_type := "NodePort" |});
       final := s; effects := [] |}
  else
    {| outcome := Returns None;
       final := with_opened_ports (cluster_ports self) s;
       effects := [ESetPorts (cluster_ports self)] |}.
Proof.
  unfold open_ports.
  destruct (truthy (cfg_expose_gossip_and_rpc_ports (config self)));
    reflexivity.
Qed.

Lemma hook_bind_run {A} (m : M A) (h : M unit) (s : State) (a : A) :
  outcome (m s) = Returns a →
  let r := (service_patch <- m ;; h ;; ret service_patch)%hook s in
  final r = final (h (final (m s))) ∧
  effects r = effects (m s) ++ effects (h (final (m s))) ∧
  ∀ answer, outcome r = Returns answer → answer = a.
Proof.
  cbn zeta. unfold bind, ret. destruct (m s) as [o s0 e0].
  cbn [outcome final effects]. intros ->.
  destruct (h s0) as [[[]|e] sf es]; cbn [outcome final effects];
    rewrite ?app_nil_r; repeat split; congruence.
Qed.

(** A handler that leaves the opened ports alone and never calls
    [set_ports]. *)
Lemma hook_ports_of (h : M unit) (s : State) :
  (∀ s1, opened_ports (final (h s1)) = opened_ports s1 ∧
         ∀ ps, ESetPorts ps ∉ effects (h s1)) →
  hook_ports self s
    ((service_patch <- open_ports self ;; h ;; ret service_patch)%hook s).
Proof.
  intros Hh. unfold hook_ports.
  pose proof (open_ports_run s) as Hop.
  destruct (truthy (cfg_expose_gossip_and_rpc_ports (config self))) eqn:Hexp.
  - destruct (hook_bind_run (open_ports self) h s _ (f_equal outcome Hop))
      as (Hf & He & Ha). cbn zeta in Hf, He, Ha.
    rewrite Hf, He, Hop. cbn [final effects app].
    destruct (Hh s) as [Ho Hne].
    split; [exact Ho|]. split; [exact Hne|].
    intros answer Hans. rewrite (Ha answer Hans).
    eexists. split; [reflexivity|].
    unfold ports, get_consul_ports. rewrite Hexp. repeat split.
  - destruct (hook_bind_run (open_ports self) h s _ (f_equal outcome Hop))
      as (Hf & He & Ha). cbn zeta in Hf, He, Ha.
    rewrite Hf, Hop. cbn [final].
    destruct (Hh (with_opened_ports (cluster_ports self) s)) as [Ho Hne].
    split; [exact Ho|]. split; [|exact Ha].
    unfold cluster_ports, ports, get_consul_ports. by rewrite Hexp.
Qed.

Lemma configure_sets_no_ports (s : State) :
  (∀ ps, ESetPorts ps ∉ effects (Charm._configure self s)) ∧
  (∀ ps, ESetPorts ps ∉ effects (Legacy._configure self s)).
Proof.
  assert (Hgen : ∀ r, in_cycle_order self s r → ∀ ps, ESetPorts ps ∉ effects r).
  { intros r Hord ps Hin. unfold in_cycle_order in Hord.
    destruct Hord as (c & rs & p & sts & He & Hc & Hr & Hp & Hst).
    rewrite He in Hin.
    destruct (outcome r).
    - destruct Hst as (st & -> & _).
      destruct Hr as [->| ->]; elem_destruct.
    - destruct Hst as (-> & _).
      destruct Hr as [->| ->]; elem_destruct. }
  destruct (can_connect self) eqn:Hc.
  - rewrite (charm_configure_run self s Hc), (legacy_configure_run self s Hc).
    split; apply Hgen; apply configure_run_in_order;
      [apply charm_publication_step | apply legacy_publication_step].
  - destruct (configure_unreachable self s Hc) as [-> ->]. cbn zeta.
    cbn [effects]. split; intros ps Hin; elem_destruct.
Qed.

Lemma charm_handler_ports (ev : Charm.Event) (s1 : State) :
  let h := match ev with
           | Charm.consul_pebble_ready => Charm._on_consul_pebble_ready self
           | Charm.config_changed => Charm._on_config_changed self
           | Charm.upgrade_charm => Charm._on_upgrade self
           | Charm.endpoints_request r => Charm._on_endpoints_request self r
           end in
  opened_ports (final (h s1)) = opened_ports s1 ∧
  ∀ ps, ESetPorts ps ∉ effects (h s1).
Proof.
  cbn zeta.
  assert (Hcyc : opened_ports (final (Charm._configure self s1)) = opened_ports s1 ∧
                 ∀ ps, ESetPorts ps ∉ effects (Charm._configure self s1)).
  { destruct (configure_frame self s1) as [(Ho & _) _].
    destruct (configure_sets_no_ports s1) as [Hne _]. by split. }
  destruct ev as [| | |r]; try exact Hcyc.
  unfold Charm._on_endpoints_request, Charm._set_endpoints_on_related_apps,
    Charm.set_cluster_endpoints.
  destruct (is_leader self); cbn [negb]; unfold ret, act; cbn [final effects].
  - split; [reflexivity|]. intros ps Hin. elem_destruct.
  - split; [reflexivity|]. intros ps Hin. elem_destruct.
Qed.

Lemma legacy_handler_ports (ev : LegacyHook.Event) (s1 : State) :
  let h := match ev with
           | LegacyHook.consul_pebble_ready => Legacy._on_consul_pebble_ready self
           | LegacyHook.config_changed => Legacy._on_config_changed self
           | LegacyHook.upgrade_charm => Legacy._on_upgrade self
           | LegacyHook.relation_changed r =>
               Legacy._on_config_request self
                 (LegacyHook.provider_on_relation_changed r)
           end in
  opened_ports (final (h s1)) = opened_ports s1 ∧
  ∀ ps, ESetPorts ps ∉ effects (h s1).
Proof.
  cbn zeta.
  assert (Hcyc : opened_ports (final (Legacy._configure self s1)) = opened_ports s1 ∧
                 ∀ ps, ESetPorts ps ∉ effects (Legacy._configure self s1)).
  { destruct (configure_frame self s1) as [_ (Ho & _)].
    destruct (configure_sets_no_ports s1) as [_ Hne]. by split. }
  destruct ev as [| | |r]; try exact Hcyc.
  unfold Legacy._on_config_request, Legacy._set_config_on_related_apps.
  destruct (set_cluster_config_run self
              (Some (LegacyHook.provider_on_relation_changed r))
              (cfg_datacenter (config self))
              (Legacy._get_join_addesses self false) s1)
    as (s' & es & -> & Hall & Hs).
  cbn [final effects]. split; [apply Hs|].
  intros ps Hin. elem_destruct.
Qed.

(** X16. In every hook of either charm, whatever the event, the state and
    the way the handler ends: with exposure off the hook opens the three
    cluster ports, serf_lan 8301 over tcp and udp and http 8500, and
    asks for no Service patch; with exposure on it makes no [set_ports]
    call, so ports opened by earlier hooks stay open, and it asks for a
    NodePort patch named after the application whose serf_lan entries
    carry the configured node port. *)
Theorem hook_opens_ports_or_asks_for_node_ports (ev : Charm.Event)
    (ev' : LegacyHook.Event) (s : State) :
  hook_ports self s (Charm.hook self ev s) ∧
  hook_ports self s (LegacyHook.hook self ev' s).
Proof.
  split.
  - apply (hook_ports_of _ s). intros s1. apply (charm_handler_ports ev s1).
  - apply (hook_ports_of _ s). intros s1. apply (legacy_handler_ports ev' s1).
Qed.

End HookPorts.

(** ** serflan-node-port without exposure *)

Section NodePort.
Context `{JsonCodec}.

(** X17. While expose-gossip-and-rpc-ports is off, serflan-node-port has no
    influence at all: for every event and state, the hook of either
    charm does the same calls in the same order, answers the same and
    leaves the same state, whatever the value of the option. *)
Theorem node_port_ignored_without_exposure (self : HookCtx) (p : Z)
    (ev : Charm.Event) (ev' : LegacyHook.Event) (s : State) :
  truthy (cfg_expose_gossip_and_rpc_ports (config self)) = false →
  Charm.hook (with_node_port p self) ev s = Charm.hook self ev s ∧
  LegacyHook.hook (with_node_port p self) ev' s = LegacyHook.hook self ev' s.
Proof.
  destruct self as [[dc ex np] an mn pu il cc rf cp si sp].
  unfold with_node_port.
  cbn [config cfg_datacenter cfg_expose_gossip_and_rpc_ports cfg_serflan_node_port
       app_name model_name planned_units is_leader can_connect restart_failure
       cluster_pods set_iteration set_iteration_perm].
  intros Hexp.
  assert (Hex : ex = CfgNone ∨ ex = CfgBool false ∨ ex = CfgInt 0 ∨ ex = CfgStr "").
  { destruct ex as [|b|n|v]; cbn [truthy] in Hexp.
    - by left.
    - right; left. by rewrite Hexp.
    - right; right; left. apply negb_false_iff, Z.eqb_eq in Hexp. by rewrite Hexp.
    - right; right; right. apply negb_false_iff, String.eqb_eq in Hexp.
      by rewrite Hexp. }
  destruct Hex as [->|[->|[->| ->]]]; split; reflexivity.
Qed.

End NodePort.

(** The config-changed hook on a fresh workload with exposure off, at
    the node ports 30501 and 1. *)
Lemma node_port_ignored_without_exposure_witness :
  let self := Example.ctx (CfgBool false) 30501 true None in
  truthy (cfg_expose_gossip_and_rpc_ports (config self)) = false ∧
  @Charm.hook RefJson.codec (with_node_port 1 self) Charm.config_changed Example.fresh =
    @Charm.hook RefJson.codec self Charm.config_changed Example.fresh ∧
  applied_serf_lan
    (@Charm.hook RefJson.codec (with_node_port 1 self) Charm.config_changed
       Example.fresh) = Some (JInt 8301).
Proof.
  intros self.
  assert (H1 : truthy (cfg_expose_gossip_and_rpc_ports (config self)) = false)
    by reflexivity.
  destruct (@node_port_ignored_without_exposure RefJson.codec self 1
              Charm.config_changed LegacyHook.config_changed Example.fresh H1)
    as [Hc _].
  split; [exact H1|]. split; [exact Hc|]. vm_compute. reflexivity.
Defined.

(** ** The requirer's events and properties *)

Section RequirerProperties.
Context `{JsonCodec}.

(** X18. The requirer handles relation-broken as it handles
    relation-changed: for either event it emits config_changed when the
    databag validates and nothing when it does not. With a relation,
    its two properties answer a value exactly when the databag
    validates. With no relation at all, validation passes and
    config_changed is emitted, while both properties answer None. *)
Theorem requirer_events_and_properties (rel : option Requirer.Relation)
    (kind : Requirer.RelationEventKind) (event : nat) :
  Requirer.dispatch rel kind event =
    (if Requirer._validate_databag_from_relation rel
     then [Requirer.config_changed event] else []) ∧
  match rel with
  | Some _ =>
      (Requirer._validate_databag_from_relation rel = true ↔
       is_Some (Requirer.datacenter rel)) ∧
      (Requirer._validate_databag_from_relation rel = true ↔
       is_Some (Requirer.server_join_addresses rel))
  | None =>
      Requirer._validate_databag_from_relation rel = true ∧
      Requirer.datacenter rel = None ∧
      Requirer.server_join_addresses rel = None
  end.
Proof.
  split.
  - unfold Requirer.dispatch, Requirer.observers.
    cbn [flat_map fst snd Requirer.call]. unfold Requirer._on_relation_changed.
    destruct kind; cbn [Requirer.kind_eqb app];
      destruct (Requirer._validate_databag_from_relation rel); reflexivity.
  - destruct rel as [rel|]; [|repeat split].
    unfold Requirer._validate_databag_from_relation, Requirer.datacenter,
      Requirer.server_join_addresses, Requirer._get_app_databag_from_relation.
    destruct (new_ConsulConfigProviderAppData (Requirer.rel_app_data rel))
      as [data|].
    + unfold model_dump. split; (split; [intros _ | reflexivity]).
      * rewrite lookup_insert_eq. by eexists.
      * rewrite lookup_insert_ne by done. rewrite lookup_singleton_eq. by eexists.
    + split; (split; [discriminate | rewrite lookup_empty; by intros [? ?]]).
Qed.

End RequirerProperties.


(** A workload that was never configured: the cycle of either charm
    writes the file. *)
Lemma missing_config_file_forces_rewrite_witness :
  let self := Example.ctx (CfgBool false) 30501 true None in
  can_connect self = true ∧
  files Example.fresh !! CONSUL_CONFIG_PATH = None ∧
  config_written (@Charm._configure RefJson.codec self Example.fresh) ∧
  config_written (@Legacy._configure RefJson.codec self Example.fresh).
Proof.
  intros self.
  assert (H1 : can_connect self = true) by reflexivity.
  assert (H2 : files Example.fresh !! CONSUL_CONFIG_PATH = None) by reflexivity.
  destruct (@missing_config_file_forces_rewrite RefJson.codec self Example.fresh
              H1 H2) as (_ & Hc & Hl).
  split; [exact H1|]. split; [exact H2|]. split; [exact Hc | exact Hl].
Defined.

(** ** Idempotence of the earlier charm's cycle, databags included *)

Lemma set_cluster_config_leader `{JsonCodec} (self self' : HookCtx)
    (relation : option nat) (dc : string) (addrs : list string) (s : State) :
  is_leader self' = is_leader self →
  Provider.set_cluster_config self' relation dc addrs s =
  Provider.set_cluster_config self relation dc addrs s.
Proof. unfold Provider.set_cluster_config. by intros ->. Qed.

Lemma status_state_leader (self self' : HookCtx) (st : Status) (s : State) :
  is_leader self' = is_leader self →
  status_state self' st s = status_state self st s.
Proof. unfold status_state. by intros ->. Qed.

Lemma next_process_renders_the_same `{JsonCodec} (self self' : HookCtx) :
  next_process self self' →
  Legacy.consul_config self' = Legacy.consul_config self.
Proof.
  intros (Hcfg & Han & Hmn & Hpu & _).
  unfold Legacy.consul_config, Legacy._get_join_addesses, ports, get_consul_ports.
  rewrite !andb_false_r. by rewrite Hcfg, Han, Hmn, Hpu.
Qed.

Section LegacyIdempotence.
Context `{JsonCodec}.
Variable self : HookCtx.

(** Publishing again over what a publication and a status left. *)
Lemma legacy_publish_twice (st : Status) (s : State) :
  let p := Legacy._set_config_on_related_apps self None in
  final (p (status_state self st (final (p s)))) =
  status_state self st (final (p s)).
Proof.
  cbn zeta. unfold Legacy._set_config_on_related_apps.
  set (dc := cfg_datacenter (config self)).
  set (addrs := Legacy._get_join_addesses self false).
  set (x := final (Provider.set_cluster_config self None dc addrs s)).
  destruct (set_cluster_config_frame self None dc addrs (status_state self st x))
    as [_ Hf]. cbn zeta in Hf. rewrite Hf.
  destruct (status_state_frame self st x) as (_ & _ & Hd & _).
  assert (Hsame : databags (final (Provider.set_cluster_config self None dc addrs
                                     (status_state self st x))) =
                  databags (status_state self st x)).
  { destruct (is_leader self) eqn:Hl.
    - apply map_eq. intros rid.
      rewrite (set_cluster_config_databags self None dc addrs _ rid Hl).
      rewrite Hd. unfold x.
      rewrite (set_cluster_config_databags self None dc addrs s rid Hl).
      destruct (databags s !! rid) as [bag|]; [|reflexivity].
      cbn [fmap option_fmap option_map]. by rewrite config_written_to_idem.
    - unfold Provider.set_cluster_config. rewrite Hl. reflexivity. }
  rewrite Hsame. apply with_databags_same.
Qed.

(** X19. The cycle of the earlier charm is idempotent from one hook to
    the next where the pebble plan holds no service but consul's. After
    a cycle that completed successfully, and with Python's json reading
    back the document it wrote, the cycle of the next hook, which is
    another process and may walk a set in another order, writes no
    file, applies no layer, restarts nothing, makes the relation writes
    again and leaves all of the state but the contents of the databags as
    it was, with the same relations. Where it computes the addresses for
    clients in the same order, as it does with exposure off, the
    databags and so the whole state are as the first cycle left them. *)
Theorem legacy_reconcile_idempotent (self' : HookCtx) (s : State) :
  next_process self self' →
  can_connect self = true →
  only_consul_service s →
  json_round_trip None (Legacy.consul_config self) →
  cycle_succeeded (Legacy._configure self s) →
  let r1 := Legacy._configure self s in
  let r2 := Legacy._configure self' (final r1) in
  quiet_cycle r2 ∧
  effects r2 =
    effects (Legacy._set_config_on_related_apps self' None (final r1)) ++
    status_effects self' (ActiveStatus "") ∧
  same_but_databags (final r1) (final r2) ∧
  dom (databags (final r2)) = dom (databags (final r1)) ∧
  (Legacy._get_join_addesses self' false = Legacy._get_join_addesses self false →
   final r2 = final r1).
Proof.
  intros Hnext Hc Hplan Hrt Hok. cbn zeta.
  pose proof (next_process_renders_the_same self self' Hnext) as Hdoc.
  destruct Hnext as (Hcfg & _ & _ & _ & Hil & Hcc & _).
  assert (Hc' : can_connect self' = true) by (by rewrite Hcc).
  rewrite (legacy_configure_run self s Hc) in Hok |- *.
  rewrite (legacy_configure_run self' _ Hc'). rewrite Hdoc.
  pose proof (configure_run_readable self _ _ _ s (or_introl (proj1 Hok))) as Hread.
  destruct (configure_run_settles self
              (Legacy._set_config_on_related_apps self None)
              (Legacy.consul_config self)
              (json_dumps None (Legacy.consul_config self)) s
              (legacy_publication_step self) (py_eq_empty_build _) Hread Hplan)
    as ((doc & Hrd & He) & Hpl).
  { exists (Legacy.consul_config self). split; [exact Hrt | apply py_eq_build_refl]. }
  cbn zeta in Hrd, Hpl.
  split; [exact (configure_run_quiet self' _ _ _ _ doc
                   (legacy_publication_step _) Hrd He Hpl)|].
  rewrite (configure_run_quiet_form self' _ _ _ _ doc Hrd He Hpl).
  cbn [final effects].
  split; [reflexivity|].
  destruct (configure_run_succeeded_form self _ _ _ _ Hok) as [s2 Hs2].
  rewrite Hs2 in *.
  set (x := final (Legacy._set_config_on_related_apps self None s2)) in *.
  destruct (legacy_publication_step self' (status_state self (ActiveStatus "") x))
    as (_ & _ & (Hf & Hp & _ & Ha & Ho & Hk) & Hdom).
  destruct (status_state_frame self' (ActiveStatus "")
              (final (Legacy._set_config_on_related_apps self' None
                        (status_state self (ActiveStatus "") x))))
    as (Hf' & Hp' & Hd' & Ho' & Hk' & Hu' & Ha').
  destruct (status_state_frame self (ActiveStatus "") x)
    as (_ & _ & _ & _ & _ & Hu & Hax).
  split; [|split].
  - unfold same_but_databags.
    rewrite Hf', Hp', Ho', Hk', Hu', Ha', Hf, Hp, Ho, Hk, Hu, Ha, Hax, Hil.
    repeat split. by destruct (is_leader self).
  - by rewrite Hd', Hdom.
  - intros Haddrs.
    assert (Hpub : Legacy._set_config_on_related_apps self' None
                     (status_state self (ActiveStatus "") x) =
                   Legacy._set_config_on_related_apps self None
                     (status_state self (ActiveStatus "") x)).
    { unfold Legacy._set_config_on_related_apps. rewrite Haddrs, Hcfg.
      by apply set_cluster_config_leader. }
    rewrite Hpub, (status_state_leader self self' _ _ Hil).
    unfold x. rewrite legacy_publish_twice. apply status_state_idem.
Qed.

End LegacyIdempotence.

(** Two cycles of the earlier charm's leader on a fresh workload with
    one relation, the second in a process that walks sets the other way
    round: with exposure off the state is the same after both. With
    exposure on and pods on two hosts, that second process computes the
    addresses for clients in another order. *)
Lemma legacy_reconcile_idempotent_witness :
  let self := Example.ctx (CfgBool false) 30501 true None in
  let self' := with_reversed_iteration self in
  let r1 := @Legacy._configure RefJson.codec self Example.fresh in
  let r2 := @Legacy._configure RefJson.codec self' (final r1) in
  let exposed :=
    with_cluster_pods [Example.pod "10.10.0.10"; Example.pod "10.10.0.11"]
      (Example.ctx (CfgBool true) 30501 true None) in
  next_process self self' ∧
  can_connect self = true ∧
  only_consul_service Example.fresh ∧
  @json_round_trip RefJson.codec None (Legacy.consul_config self) ∧
  cycle_succeeded r1 ∧
  restart_attempted r1 ∧
  quiet_cycle r2 ∧ final r2 = final r1 ∧
  Legacy._get_join_addesses (with_reversed_iteration exposed) false ≠
    Legacy._get_join_addesses exposed false.
Proof.
  intros self self' r1 r2 exposed.
  assert (H0 : next_process self self') by (repeat split).
  assert (H1 : can_connect self = true) by reflexivity.
  assert (H2 : only_consul_service Example.fresh) by (intros name _; reflexivity).
  assert (H3 : @json_round_trip RefJson.codec None (Legacy.consul_config self))
    by (vm_compute; reflexivity).
  assert (H4 : cycle_succeeded r1) by (split; vm_compute; reflexivity).
  destruct (@legacy_reconcile_idempotent RefJson.codec self self' Example.fresh
              H0 H1 H2 H3 H4) as (Hq & _ & _ & _ & Hf).
  split; [exact H0|]. split; [exact H1|]. split; [exact H2|]. split; [exact H3|].
  split; [exact H4|]. split; [vm_compute; elem_prove|].
  split; [exact Hq|]. split; [apply Hf; reflexivity|].
  vm_compute. discriminate.
Defined.
